(** * homebridge-airmx: the accessory registry and the status/command
      synchronisation of [src/index.ts]

    The plugin is a single-threaded, callback-driven program.  Its state is
    the [AirmxPlatform] object (the [accessories] map, [discoveredUuids],
    the configuration) together with the [PlatformAccessory] objects the map,
    the host and the [AirmxProAccessory] handlers all point to.  The
    embedding keeps that sharing: accessory objects live in a store and
    everything else holds references into it.  Calls that leave the plugin
    (the host API, the AIRMX client, the logger) are recorded in the order
    they are made.

    Numbers are modelled as [Z]: device identifiers, telemetry fields and
    characteristic values are integers in the protocol and in HomeKit. *)

From stdpp Require Import base numbers strings list pretty.

Local Open Scope Z_scope.

(** ** Data model *)

(** [interface Device]. *)
Record Device := { id : Z; key : string }.

(** [interface AirmxPlatformConfig] (the two fields the plugin reads). *)
Record AirmxPlatformConfig := { mqtt : string; devices : list Device }.

(** The seven fields of [EagleStatusData] picked by
    [AccessoryContext.status]. *)
Module EagleStatusData.
Record t := {
  power : Z;
  mode : Z;
  cadr : Z;
  g4Percent : Z;
  carbonPercent : Z;
  hepaPercent : Z;
  version : string
}.
End EagleStatusData.

(** The [EagleStatus] message handed to the [onEagleUpdate] listener; the
    listener reads [deviceId] and the seven fields below. *)
Module EagleStatus.
Record t := {
  deviceId : Z;
  power : Z;
  mode : Z;
  cadr : Z;
  g4Percent : Z;
  carbonPercent : Z;
  hepaPercent : Z;
  version : string
}.
End EagleStatus.

(** [EagleControlData]: a complete command record. *)
Module EagleControlData.
Record t := {
  power : Z;
  heatStatus : Z;
  mode : Z;
  cadr : Z;
  denoise : Z
}.

(** [Partial<EagleControlData>]: every field may be left out. *)
Record partial := {
  power' : option Z;
  heatStatus' : option Z;
  mode' : option Z;
  cadr' : option Z;
  denoise' : option Z
}.

(** [{ ...base, ...data }]: a field of [data] wins where it is there. *)
Definition spread (base : t) (data : partial) : t :=
  {| power := default (power base) (power' data);
     heatStatus := default (heatStatus base) (heatStatus' data);
     mode := default (mode base) (mode' data);
     cadr := default (cadr base) (cadr' data);
     denoise := default (denoise base) (denoise' data) |}.
End EagleControlData.

(** [enum EagleMode]. *)
Module EagleMode.
Definition Manual : Z := 0.
Definition Ai : Z := 1.
End EagleMode.

Definition pluginIdentifier : string := "homebridge-airmx".
Definition platformName : string := "Airmx".

(** The stub control data for initial sending when the latest device status
    is not available. *)
Definition stubControl : EagleControlData.t :=
  {| EagleControlData.power := 0;
     EagleControlData.heatStatus := 0;
     EagleControlData.mode := 0;
     EagleControlData.cadr := 47;
     EagleControlData.denoise := 0 |}.

(** [interface AccessoryContext]. *)
Record AccessoryContext := {
  device : Device;
  status : option EagleStatusData.t
}.

(** The part of the host's [PlatformAccessory<AccessoryContext>] the plugin
    touches. *)
Record PlatformAccessory := {
  displayName : string;
  UUID : string;
  context : AccessoryContext
}.

(** [accessory.context.status = s] on an accessory value. *)
Definition with_status (s : option EagleStatusData.t)
    (a : PlatformAccessory) : PlatformAccessory :=
  {| displayName := displayName a;
     UUID := UUID a;
     context := {| device := device (context a); status := s |} |}.

(** A reference to an accessory object: its index in the store. *)
Abbreviation ref := nat (only parsing).

(** ** The host's [api.hap] *)

(** What the plugin takes from [api.hap]: the UUID generator and the
    constants of the characteristics.  Their values are the host's; the
    plugin only names them. *)
Class Hap := {
  uuid_generate : string → string;
  Active_INACTIVE : Z;
  Active_ACTIVE : Z;
  CurrentAirPurifierState_INACTIVE : Z;
  CurrentAirPurifierState_PURIFYING_AIR : Z;
  TargetAirPurifierState_MANUAL : Z;
  TargetAirPurifierState_AUTO : Z;
  FilterChangeIndication_FILTER_OK : Z;
  FilterChangeIndication_CHANGE_FILTER : Z
}.

(** [Number.prototype.toString] on an integer: decimal digits, with a
    leading minus sign below zero. *)
Definition toString (n : Z) : string := pretty n.

(** ** JavaScript [Map] with string keys

    Entries are kept in insertion order; [set] on a key that is already
    there replaces the value where it stands. *)
Module JsMap.
Definition t (V : Type) := list (string * V).

Definition empty {V} : t V := [].

Fixpoint get {V} (k : string) (m : t V) : option V :=
  match m with
  | [] => None
  | (k', v) :: m' => if decide (k = k') then Some v else get k m'
  end.

Fixpoint set {V} (k : string) (v : V) (m : t V) : t V :=
  match m with
  | [] => [(k, v)]
  | (k', v') :: m' =>
      if decide (k = k') then (k, v) :: m' else (k', v') :: set k v m'
  end.

Definition entries {V} (m : t V) : list (string * V) := m.
End JsMap.

(** [Array.prototype.includes] on an array of strings. *)
Definition includes (x : string) (l : list string) : bool :=
  bool_decide (x ∈ l).

(** ** Calls that leave the plugin *)

(** Calls on the host [api]. *)
Inductive ApiCall :=
| registerPlatformAccessories (plugin platform : string) (accs : list ref)
| unregisterPlatformAccessories (plugin platform : string) (accs : list ref).

(** Calls on the AIRMX client: [airmx.control(id, data)] and the methods of
    [airmx.device(id)]. *)
Inductive AirmxCall :=
| control (deviceId : Z) (data : EagleControlData.t)
| device_on (deviceId : Z)
| device_off (deviceId : Z)
| device_ai (deviceId : Z)
| device_cadr (deviceId : Z) (cadr : Z).

(** [new AirmxProAccessory(platform, accessory)]: the handler object bound
    to one accessory. *)
Record AirmxProAccessory := { accessory : ref }.

(** ** Program state *)

Record World := {
  heap : list PlatformAccessory;
  config : AirmxPlatformConfig;
  accessories : JsMap.t ref;
  discoveredUuids : list string;
  handlers : list AirmxProAccessory;
  api_calls : list ApiCall;
  airmx_calls : list AirmxCall;
  log : list (string * Z)
}.

Definition set_heap (f : list PlatformAccessory → list PlatformAccessory)
    (w : World) : World :=
  {| heap := f (heap w); config := config w; accessories := accessories w;
     discoveredUuids := discoveredUuids w; handlers := handlers w;
     api_calls := api_calls w; airmx_calls := airmx_calls w; log := log w |}.

Definition set_accessories (f : JsMap.t ref → JsMap.t ref)
    (w : World) : World :=
  {| heap := heap w; config := config w; accessories := f (accessories w);
     discoveredUuids := discoveredUuids w; handlers := handlers w;
     api_calls := api_calls w; airmx_calls := airmx_calls w; log := log w |}.

Definition set_discoveredUuids (f : list string → list string)
    (w : World) : World :=
  {| heap := heap w; config := config w; accessories := accessories w;
     discoveredUuids := f (discoveredUuids w); handlers := handlers w;
     api_calls := api_calls w; airmx_calls := airmx_calls w; log := log w |}.

Definition set_handlers (f : list AirmxProAccessory → list AirmxProAccessory)
    (w : World) : World :=
  {| heap := heap w; config := config w; accessories := accessories w;
     discoveredUuids := discoveredUuids w; handlers := f (handlers w);
     api_calls := api_calls w; airmx_calls := airmx_calls w; log := log w |}.

Definition set_api_calls (f : list ApiCall → list ApiCall)
    (w : World) : World :=
  {| heap := heap w; config := config w; accessories := accessories w;
     discoveredUuids := discoveredUuids w; handlers := handlers w;
     api_calls := f (api_calls w); airmx_calls := airmx_calls w;
     log := log w |}.

Definition set_airmx_calls (f : list AirmxCall → list AirmxCall)
    (w : World) : World :=
  {| heap := heap w; config := config w; accessories := accessories w;
     discoveredUuids := discoveredUuids w; handlers := handlers w;
     api_calls := api_calls w; airmx_calls := f (airmx_calls w);
     log := log w |}.

Definition set_log (f : list (string * Z) → list (string * Z))
    (w : World) : World :=
  {| heap := heap w; config := config w; accessories := accessories w;
     discoveredUuids := discoveredUuids w; handlers := handlers w;
     api_calls := api_calls w; airmx_calls := airmx_calls w;
     log := f (log w) |}.

(** ** The monad of the embedding

    A computation takes the state and gives a result with the new state.
    [None] is reserved for the one thing JavaScript rules out: following a
    reference to an object that was never created. *)
Definition M (A : Type) : Type := World → option (A * World).

#[global] Instance M_ret : MRet M := λ A x w, Some (x, w).
#[global] Instance M_bind : MBind M := λ A B f m w,
  match m w with
  | Some (x, w') => f x w'
  | None => None
  end.

#[global] Instance M_fmap : FMap M := λ A B f m w,
  match m w with
  | Some (x, w') => Some (f x, w')
  | None => None
  end.

Definition gets {A} (f : World → A) : M A := λ w, Some (f w, w).
Definition modify (f : World → World) : M unit := λ w, Some (tt, f w).

(** Read the object behind a reference. *)
Definition deref (r : ref) : M PlatformAccessory :=
  λ w, match heap w !! r with
       | Some a => Some (a, w)
       | None => None
       end.

(** Create an accessory object; the result is the reference to it. *)
Definition alloc (a : PlatformAccessory) : M ref :=
  λ w, Some (length (heap w), set_heap (λ h, h ++ [a]) w).

(** [accessory.context.status = s] through a reference. *)
Definition assign_status (r : ref) (s : option EagleStatusData.t) : M unit :=
  a ← deref r;
  modify (set_heap (λ h, <[r := with_status s a]> h)).

Definition log_info (msg : string) (n : Z) : M unit :=
  modify (set_log (λ l, l ++ [(msg, n)])).

Definition api_call (c : ApiCall) : M unit :=
  modify (set_api_calls (λ l, l ++ [c])).

Definition airmx_call (c : AirmxCall) : M unit :=
  modify (set_airmx_calls (λ l, l ++ [c])).

(** [for (const x of l) body(x)]. *)
Fixpoint for_of {A} (l : list A) (body : A → M unit) : M unit :=
  match l with
  | [] => mret tt
  | x :: l' => body x;; for_of l' body
  end.

(** ** class AirmxPlatform *)

Section Plugin.
Context `{hap : Hap}.

(** The fresh platform object: an empty [accessories] map and no
    discovered UUID.  Nothing has been called yet. *)
Definition AirmxPlatform (cfg : AirmxPlatformConfig) : World :=
  {| heap := []; config := cfg; accessories := JsMap.empty;
     discoveredUuids := []; handlers := [];
     api_calls := []; airmx_calls := []; log := [] |}.

(** [new AirmxProAccessory(platform, accessory)].  The constructor binds
    the get and set handlers below to the accessory's characteristics; the
    state keeps the handler object. *)
Definition new_AirmxProAccessory (r : ref) : M unit :=
  modify (set_handlers (λ l, l ++ [{| accessory := r |}])).

(** The listener passed to [airmx.onEagleUpdate]. *)
Definition onEagleUpdate (status : EagleStatus.t) : M unit :=
  log_info "Receive a status update from device:"
    (EagleStatus.deviceId status);;
  let uuid := uuid_generate (toString (EagleStatus.deviceId status)) in
  found ← gets (λ w, JsMap.get uuid (accessories w));
  match found with
  | Some r =>
      log_info "Update the current status to device:"
        (EagleStatus.deviceId status);;
      assign_status r (Some
        {| EagleStatusData.power := EagleStatus.power status;
           EagleStatusData.mode := EagleStatus.mode status;
           EagleStatusData.cadr := EagleStatus.cadr status;
           EagleStatusData.g4Percent := EagleStatus.g4Percent status;
           EagleStatusData.carbonPercent := EagleStatus.carbonPercent status;
           EagleStatusData.hepaPercent := EagleStatus.hepaPercent status;
           EagleStatusData.version := EagleStatus.version status |})
  | None => mret tt
  end.

Definition configureAccessory (r : ref) : M unit :=
  a ← deref r;
  log_info "Loading accessory from cache:" (id (device (context a)));;
  modify (set_accessories (JsMap.set (UUID a) r)).

Definition restoreAccessory (r : ref) : M unit :=
  a ← deref r;
  log_info "Restoring existing accessory from cache:"
    (id (device (context a)));;
  new_AirmxProAccessory r.

Definition registerAccessory (r : ref) : M unit :=
  a ← deref r;
  log_info "Adding new accessory:" (id (device (context a)));;
  modify (set_accessories (JsMap.set (UUID a) r));;
  new_AirmxProAccessory r;;
  api_call (registerPlatformAccessories pluginIdentifier platformName [r]).

(** The body of the loop of [registerDevices].  A new accessory is
    created with [context.device] set and no status. *)
Definition registerDevice (d : Device) : M unit :=
  let uuid := uuid_generate (toString (id d)) in
  existingAccessory ← gets (λ w, JsMap.get uuid (accessories w));
  match existingAccessory with
  | Some r => restoreAccessory r
  | None =>
      r ← alloc {| displayName := "AIRMX Pro"; UUID := uuid;
                   context := {| device := d; status := None |} |};
      registerAccessory r
  end;;
  modify (set_discoveredUuids (λ l, l ++ [uuid])).

Definition registerDevices : M unit :=
  ds ← gets (λ w, devices (config w));
  for_of ds registerDevice.

(** The body of the loop of [cleanUpObsolete]. *)
Definition cleanUpEntry (e : string * ref) : M unit :=
  seen ← gets (λ w, includes e.1 (discoveredUuids w));
  if negb seen
  then api_call
         (unregisterPlatformAccessories pluginIdentifier platformName [e.2])
  else mret tt.

Definition cleanUpObsolete : M unit :=
  es ← gets (λ w, JsMap.entries (accessories w));
  for_of es cleanUpEntry.

(** The listener of the host's [didFinishLaunching] event. *)
Definition didFinishLaunching : M unit :=
  registerDevices;; cleanUpObsolete.

(** ** class AirmxProAccessory *)

Definition sendRawControl (this : AirmxProAccessory)
    (data : EagleControlData.partial) : M unit :=
  a ← deref (accessory this);
  airmx_call (control (id (device (context a)))
                (EagleControlData.spread stubControl data)).

(** [status?.version || 'N/A']: the empty string is falsy. *)
Definition handleFirmwareRevisionGet (this : AirmxProAccessory) : M string :=
  a ← deref (accessory this);
  mret (match status (context a) with
        | Some s =>
            if decide (EagleStatusData.version s = "")
            then "N/A" else EagleStatusData.version s
        | None => "N/A"
        end).

Definition handleActiveGet (this : AirmxProAccessory) : M Z :=
  a ← deref (accessory this);
  mret (match status (context a) with
        | Some s =>
            if decide (EagleStatusData.power s = 1)
            then Active_ACTIVE else Active_INACTIVE
        | None => Active_INACTIVE
        end).

Definition handleActiveSet (this : AirmxProAccessory) (value : Z) : M unit :=
  let isOn := bool_decide (value = Active_ACTIVE) in
  a ← deref (accessory this);
  match status (context a) with
  | None =>
      sendRawControl this
        {| EagleControlData.power' := Some (if isOn then 1 else 0);
           EagleControlData.heatStatus' := None;
           EagleControlData.mode' := None;
           EagleControlData.cadr' := None;
           EagleControlData.denoise' := None |}
  | Some _ =>
      let device := id (device (context a)) in
      if isOn then airmx_call (device_on device)
      else airmx_call (device_off device)
  end.

Definition handleCurrentAirPurifierStateGet (this : AirmxProAccessory)
    : M Z :=
  a ← deref (accessory this);
  mret (match status (context a) with
        | Some s =>
            if decide (EagleStatusData.power s = 1)
            then CurrentAirPurifierState_PURIFYING_AIR
            else CurrentAirPurifierState_INACTIVE
        | None => CurrentAirPurifierState_INACTIVE
        end).

Definition handleTargetAirPurifierStateGet (this : AirmxProAccessory)
    : M Z :=
  a ← deref (accessory this);
  mret (match status (context a) with
        | Some s =>
            if decide (EagleStatusData.mode s = EagleMode.Ai)
            then TargetAirPurifierState_AUTO
            else TargetAirPurifierState_MANUAL
        | None => TargetAirPurifierState_MANUAL
        end).

Definition handleTargetAirPurifierStateSet (this : AirmxProAccessory)
    (value : Z) : M unit :=
  a ← deref (accessory this);
  let isAuto := bool_decide (value = TargetAirPurifierState_AUTO) in
  match status (context a) with
  | None =>
      sendRawControl this
        {| EagleControlData.power' := Some 1;
           EagleControlData.heatStatus' := None;
           EagleControlData.mode' :=
             Some (if isAuto then EagleMode.Ai else EagleMode.Manual);
           EagleControlData.cadr' := None;
           EagleControlData.denoise' := None |}
  | Some s =>
      let device := id (device (context a)) in
      if isAuto then airmx_call (device_ai device)
      else airmx_call (device_cadr device (EagleStatusData.cadr s))
  end.

(** [status?.cadr || 0]: a zero throughput is falsy and reads as 0. *)
Definition handleRotationSpeedGet (this : AirmxProAccessory) : M Z :=
  a ← deref (accessory this);
  mret (match status (context a) with
        | Some s =>
            if decide (EagleStatusData.cadr s = 0)
            then 0 else EagleStatusData.cadr s
        | None => 0
        end).

Definition handleRotationSpeedSet (this : AirmxProAccessory) (value : Z)
    : M unit :=
  a ← deref (accessory this);
  match status (context a) with
  | None =>
      sendRawControl this
        {| EagleControlData.power' := Some 1;
           EagleControlData.heatStatus' := None;
           EagleControlData.mode' := Some EagleMode.Manual;
           EagleControlData.cadr' := Some value;
           EagleControlData.denoise' := None |}
  | Some _ =>
      airmx_call (device_cadr (id (device (context a))) value)
  end.

(** [Math.max(g4Percent, carbonPercent, hepaPercent)]. *)
Definition maxPercent (s : EagleStatusData.t) : Z :=
  Z.max (Z.max (EagleStatusData.g4Percent s)
               (EagleStatusData.carbonPercent s))
        (EagleStatusData.hepaPercent s).

Definition handleFilterChangeIndicationGet (this : AirmxProAccessory)
    : M Z :=
  a ← deref (accessory this);
  mret (match status (context a) with
        | None => FilterChangeIndication_FILTER_OK
        | Some s =>
            let threshold := 80 in
            if bool_decide (maxPercent s > threshold)
            then FilterChangeIndication_CHANGE_FILTER
            else FilterChangeIndication_FILTER_OK
        end).

Definition handleFilterLifeLevelGet (this : AirmxProAccessory) : M Z :=
  a ← deref (accessory this);
  mret (match status (context a) with
        | None => 100
        | Some s => 100 - maxPercent s
        end).

(** ** The entry points of the plugin

    The constructors of [AirmxPlatform] and [AirmxProAccessory] hand these
    callbacks to the AIRMX client and to the host; afterwards the plugin
    only runs when one of them is called. *)

(** The seven characteristics with an [onGet] handler. *)
Inductive Characteristic :=
| FirmwareRevision
| Active
| CurrentAirPurifierState
| TargetAirPurifierState
| RotationSpeed
| FilterChangeIndication
| FilterLifeLevel.

(** What a get handler hands back: a number or a string. *)
Inductive CharacteristicValue :=
| VNumber (n : Z)
| VString (s : string).

(** The [onGet] bindings of [registerAccessoryInformation],
    [registerAirPurifier] and [registerFilter]. *)
Definition onGet (c : Characteristic) (this : AirmxProAccessory)
    : M CharacteristicValue :=
  match c with
  | FirmwareRevision => VString <$> handleFirmwareRevisionGet this
  | Active => VNumber <$> handleActiveGet this
  | CurrentAirPurifierState =>
      VNumber <$> handleCurrentAirPurifierStateGet this
  | TargetAirPurifierState =>
      VNumber <$> handleTargetAirPurifierStateGet this
  | RotationSpeed => VNumber <$> handleRotationSpeedGet this
  | FilterChangeIndication =>
      VNumber <$> handleFilterChangeIndicationGet this
  | FilterLifeLevel => VNumber <$> handleFilterLifeLevelGet this
  end.

Inductive Event :=
| HostRestore (cached : PlatformAccessory)
| DidFinishLaunching
| EagleUpdate (status : EagleStatus.t)
| CharacteristicGet (c : Characteristic) (this : AirmxProAccessory)
| ActiveSet (this : AirmxProAccessory) (value : Z)
| TargetAirPurifierStateSet (this : AirmxProAccessory) (value : Z)
| RotationSpeedSet (this : AirmxProAccessory) (value : Z).

(** One callback run to completion.  [HostRestore] is the host reading an
    accessory back from its cache and passing the object to
    [configureAccessory]. *)
Definition step (e : Event) : M unit :=
  match e with
  | HostRestore cached => r ← alloc cached; configureAccessory r
  | DidFinishLaunching => didFinishLaunching
  | EagleUpdate status => onEagleUpdate status
  | CharacteristicGet c this => onGet c this;; mret tt
  | ActiveSet this value => handleActiveSet this value
  | TargetAirPurifierStateSet this value =>
      handleTargetAirPurifierStateSet this value
  | RotationSpeedSet this value => handleRotationSpeedSet this value
  end.

(** ** The host around one start of the plugin

    The host is not part of the plugin.  What follows is the lifecycle the
    plugin is written against: accessories registered in one run are kept by
    the host and handed back through [configureAccessory] at the next start,
    before [didFinishLaunching]; unregistered ones are dropped. *)

(** One start: the host creates the platform, passes every accessory of its
    cache to [configureAccessory] and then fires [didFinishLaunching]. *)
Definition launch (cache : list PlatformAccessory) : M unit :=
  for_of cache (λ cached, step (HostRestore cached));;
  step DidFinishLaunching.

(** The accessories named by the [unregisterPlatformAccessories] calls. *)
Fixpoint unregistered (calls : list ApiCall) : list ref :=
  match calls with
  | [] => []
  | unregisterPlatformAccessories _ _ accs :: calls' =>
      accs ++ unregistered calls'
  | registerPlatformAccessories _ _ _ :: calls' => unregistered calls'
  end.

(** The host's accessory cache after the calls of a run: registering adds
    the accessory, unregistering removes it. *)
Definition host_apply (cache : list ref) (c : ApiCall) : list ref :=
  match c with
  | registerPlatformAccessories _ _ accs => cache ++ accs
  | unregisterPlatformAccessories _ _ accs =>
      filter (λ r, r ∉ accs) cache
  end.

(** What the host keeps for the next start, given the references it
    restored at this one. *)
Definition host_cache (restored : list ref) (w : World)
    : list PlatformAccessory :=
  omap (λ r, heap w !! r) (foldl host_apply restored (api_calls w)).

(** All references held by the [accessories] map point to objects. *)
Definition wf (w : World) : Prop :=
  Forall (λ e : string * ref, is_Some (heap w !! e.2)) (accessories w).

(** The status object the listener builds from an update. *)
Definition snapshot (st : EagleStatus.t) : EagleStatusData.t :=
  {| EagleStatusData.power := EagleStatus.power st;
     EagleStatusData.mode := EagleStatus.mode st;
     EagleStatusData.cadr := EagleStatus.cadr st;
     EagleStatusData.g4Percent := EagleStatus.g4Percent st;
     EagleStatusData.carbonPercent := EagleStatus.carbonPercent st;
     EagleStatusData.hepaPercent := EagleStatus.hepaPercent st;
     EagleStatusData.version := EagleStatus.version st |}.

(** An event is well-formed when the handler object it names is bound to
    an accessory object. *)
Definition valid_event (w : World) (e : Event) : Prop :=
  match e with
  | CharacteristicGet _ this
  | ActiveSet this _
  | TargetAirPurifierStateSet this _
  | RotationSpeedSet this _ => is_Some (heap w !! accessory this)
  | HostRestore _ | DidFinishLaunching | EagleUpdate _ => True
  end.

(** The identifier [registerDevices] derives for a configured device. *)
Definition uuid_of (d : Device) : string :=
  uuid_generate (toString (id d)).

(** The [unregisterPlatformAccessories] calls of one pruning pass over the
    entries [es] when [seen] holds the discovered identifiers. *)
Definition prune_calls (seen : list string) (es : list (string * ref))
    : list ApiCall :=
  (λ e, unregisterPlatformAccessories pluginIdentifier platformName [e.2])
    <$> filter (λ e, e.1 ∉ seen) es.

(** What a discovery pass may change: objects, map entries, discovered
    identifiers, handler objects, log lines and host calls are only added,
    every added map entry is for an identifier in [seen], and no added
    host call unregisters. *)
Record grows (seen : list string) (w w' : World) : Prop := {
  grows_heap : ∃ extra, heap w' = heap w ++ extra;
  grows_config : config w' = config w;
  grows_accessories :
    ∃ new, accessories w' = accessories w ++ new
           ∧ Forall (λ e : string * ref, e.1 ∈ seen) new;
  grows_discoveredUuids : discoveredUuids w' = discoveredUuids w ++ seen;
  grows_api_calls :
    ∃ calls, api_calls w' = api_calls w ++ calls ∧ unregistered calls = [];
  grows_airmx_calls : airmx_calls w' = airmx_calls w
}.

(** The world after one call on the AIRMX client and nothing else. *)
Definition sent (c : AirmxCall) (w : World) : World :=
  set_airmx_calls (λ l, l ++ [c]) w.

(** The world after one [airmx.control(id, data)] call for the device of
    accessory [a] and nothing else. *)
Definition controlled (a : PlatformAccessory) (data : EagleControlData.t)
    (w : World) : World :=
  sent (control (id (device (context a))) data) w.

(** The world after one more line in the log and nothing else. *)
Definition logged (msg : string) (n : Z) (w : World) : World :=
  set_log (λ l, l ++ [(msg, n)]) w.

(** ** Further vocabulary *)

(** The device an AIRMX client call is addressed to. *)
Definition call_device (c : AirmxCall) : Z :=
  match c with
  | control i _ | device_on i | device_off i | device_ai i
  | device_cadr i _ => i
  end.

(** The accessories named by the [registerPlatformAccessories] calls. *)
Fixpoint registered (calls : list ApiCall) : list ref :=
  match calls with
  | [] => []
  | registerPlatformAccessories _ _ accs :: calls' =>
      accs ++ registered calls'
  | unregisterPlatformAccessories _ _ _ :: calls' => registered calls'
  end.

(** The callbacks bound with [onSet]. *)
Definition is_write (e : Event) : bool :=
  match e with
  | ActiveSet _ _ | TargetAirPurifierStateSet _ _ | RotationSpeedSet _ _ =>
      true
  | _ => false
  end.

(** Every entry of the [accessories] map is filed under the [UUID] of the
    object it refers to. *)
Definition keyed (w : World) : Prop :=
  Forall (λ e : string * ref, UUID <$> (heap w !! e.2) = Some e.1)
         (accessories w).

(** The registry is consistent: entries are filed under their own UUID and
    no key occurs twice. *)
Definition consistent (w : World) : Prop :=
  keyed w ∧ NoDup (accessories w).*1.

End Plugin.

(** ** A host to run examples on

    The constants are those of HAP-NodeJS; the UUID generator of the
    examples tags its input, which keeps distinct identifiers distinct. *)
Definition example_hap : Hap :=
  {| uuid_generate := λ s, "uuid-" +:+ s;
     Active_INACTIVE := 0;
     Active_ACTIVE := 1;
     CurrentAirPurifierState_INACTIVE := 0;
     CurrentAirPurifierState_PURIFYING_AIR := 2;
     TargetAirPurifierState_MANUAL := 0;
     TargetAirPurifierState_AUTO := 1;
     FilterChangeIndication_FILTER_OK := 0;
     FilterChangeIndication_CHANGE_FILTER := 1 |}.

(** One configured device, as in the README. *)
Definition example_device : Device := {| id := 1; key := "k1" |}.

Definition example_config : AirmxPlatformConfig :=
  {| mqtt := "mqtt://192.168.10.10"; devices := [example_device] |}.

(** The accessory of [example_device] before any telemetry. *)
Definition example_accessory : PlatformAccessory :=
  {| displayName := "AIRMX Pro"; UUID := "uuid-1";
     context := {| device := example_device; status := None |} |}.

(** The state after the first start with [example_config]. *)
Definition example_world : World :=
  {| heap := [example_accessory];
     config := example_config;
     accessories := [("uuid-1", 0%nat)];
     discoveredUuids := ["uuid-1"];
     handlers := [{| accessory := 0%nat |}];
     api_calls :=
       [registerPlatformAccessories "homebridge-airmx" "Airmx" [0%nat]];
     airmx_calls := [];
     log := [("Adding new accessory:", 1)] |}.

(** The handler object of the example accessory. *)
Definition example_handler : AirmxProAccessory := {| accessory := 0%nat |}.

(** A telemetry update of [example_device]; the largest filter percentage
    is exactly 80. *)
Definition example_update (v : string) : EagleStatus.t :=
  {| EagleStatus.deviceId := 1; EagleStatus.power := 1;
     EagleStatus.mode := 0; EagleStatus.cadr := 30;
     EagleStatus.g4Percent := 80; EagleStatus.carbonPercent := 12;
     EagleStatus.hepaPercent := 55; EagleStatus.version := v |}.

(** The snapshot that update leaves in the accessory. *)
Definition example_status (v : string) : EagleStatusData.t :=
  {| EagleStatusData.power := 1; EagleStatusData.mode := 0;
     EagleStatusData.cadr := 30; EagleStatusData.g4Percent := 80;
     EagleStatusData.carbonPercent := 12; EagleStatusData.hepaPercent := 55;
     EagleStatusData.version := v |}.

(** The state after the first start and one update with firmware version
    [v]. *)
Definition example_world_known (v : string) : World :=
  {| heap := [with_status (Some (example_status v)) example_accessory];
     config := example_config;
     accessories := [("uuid-1", 0%nat)];
     discoveredUuids := ["uuid-1"];
     handlers := [{| accessory := 0%nat |}];
     api_calls :=
       [registerPlatformAccessories "homebridge-airmx" "Airmx" [0%nat]];
     airmx_calls := [];
     log := [("Adding new accessory:", 1);
             ("Receive a status update from device:", 1);
             ("Update the current status to device:", 1)] |}.

(** A second device, and the state of a start that finds the accessories of
    both devices in the host's cache while only the first is configured:
    [configureAccessory] has run for both, [didFinishLaunching] not yet. *)
Definition example_device_2 : Device := {| id := 2; key := "k2" |}.

Definition example_accessory_2 : PlatformAccessory :=
  {| displayName := "AIRMX Pro"; UUID := "uuid-2";
     context := {| device := example_device_2; status := None |} |}.

Definition example_world_restored : World :=
  {| heap := [example_accessory; example_accessory_2];
     config := example_config;
     accessories := [("uuid-1", 0%nat); ("uuid-2", 1%nat)];
     discoveredUuids := [];
     handlers := [];
     api_calls := [];
     airmx_calls := [];
     log := [("Loading accessory from cache:", 1);
             ("Loading accessory from cache:", 2)] |}.

(** The same start after discovery, before pruning. *)
Definition example_world_discovered : World :=
  {| heap := [example_accessory; example_accessory_2];
     config := example_config;
     accessories := [("uuid-1", 0%nat); ("uuid-2", 1%nat)];
     discoveredUuids := ["uuid-1"];
     handlers := [{| accessory := 0%nat |}];
     api_calls := [];
     airmx_calls := [];
     log := [("Loading accessory from cache:", 1);
             ("Loading accessory from cache:", 2);
             ("Restoring existing accessory from cache:", 1)] |}.

(** The example accessory and state after an update with firmware version
    "1.0.3". *)
Definition example_accessory_known : PlatformAccessory :=
  with_status (Some (example_status "1.0.3")) example_accessory.

Definition example_known : World := example_world_known "1.0.3".

(** An update of the second example device. *)
Definition example_update_2 : EagleStatus.t :=
  {| EagleStatus.deviceId := 2; EagleStatus.power := 0;
     EagleStatus.mode := 1; EagleStatus.cadr := 20;
     EagleStatus.g4Percent := 3; EagleStatus.carbonPercent := 4;
     EagleStatus.hepaPercent := 5; EagleStatus.version := "1.0.4" |}.

(** * Properties *)

Section Properties.
Context `{hap : Hap}.

Implicit Types (w : World) (this : AirmxProAccessory)
  (a : PlatformAccessory) (s : EagleStatusData.t) (r : ref).

(** ** Running computations *)

Lemma bind_Some {A B} (m : M A) (f : A → M B) w x w' :
  m w = Some (x, w') → (m ≫= f) w = f x w'.
Proof. intros E. unfold mbind, M_bind. by rewrite E. Qed.

Lemma bind_inv {A B} (m : M A) (f : A → M B) w y w2 :
  (m ≫= f) w = Some (y, w2) →
  ∃ x w1, m w = Some (x, w1) ∧ f x w1 = Some (y, w2).
Proof.
  unfold mbind, M_bind. destruct (m w) as [[x w1]|]; [|done]. eauto.
Qed.

Lemma deref_Some w r a : heap w !! r = Some a → deref r w = Some (a, w).
Proof. intros E. unfold deref. by rewrite E. Qed.

Lemma deref_inv w r a w' :
  deref r w = Some (a, w') → heap w !! r = Some a ∧ w' = w.
Proof.
  unfold deref. destruct (heap w !! r); [|done]. by intros [= -> ->].
Qed.

(** Unfold a handler at an accessory whose object is known. *)
Ltac run H :=
  repeat (erewrite bind_Some by (apply deref_Some, H));
  unfold sendRawControl;
  repeat (erewrite bind_Some by (apply deref_Some, H));
  cbn.

(** ** Writes while the status is unknown *)

(** C1: with no status snapshot, every capability write issues exactly one
    full control command: the stub command with only the fields of the
    write overridden.  Active=on sends power 1 and the stub's other
    fields, any other Active value sends the stub as it is, a
    TargetAirPurifierState write sends power 1 with the requested mode,
    and RotationSpeed=N sends power 1, mode Manual and cadr N. *)
Theorem unknown_status_writes_from_stub this a w :
  heap w !! accessory this = Some a →
  status (context a) = None →
  handleActiveSet this Active_ACTIVE w =
    Some (tt, controlled a
      {| EagleControlData.power := 1; EagleControlData.heatStatus := 0;
         EagleControlData.mode := EagleMode.Manual;
         EagleControlData.cadr := 47; EagleControlData.denoise := 0 |} w)
  ∧ (∀ N, handleRotationSpeedSet this N w =
    Some (tt, controlled a
      {| EagleControlData.power := 1; EagleControlData.heatStatus := 0;
         EagleControlData.mode := EagleMode.Manual;
         EagleControlData.cadr := N; EagleControlData.denoise := 0 |} w))
  ∧ (∀ v, v ≠ Active_ACTIVE →
       handleActiveSet this v w = Some (tt, controlled a stubControl w))
  ∧ handleTargetAirPurifierStateSet this TargetAirPurifierState_AUTO w =
    Some (tt, controlled a
      {| EagleControlData.power := 1; EagleControlData.heatStatus := 0;
         EagleControlData.mode := EagleMode.Ai;
         EagleControlData.cadr := 47; EagleControlData.denoise := 0 |} w)
  ∧ (∀ v, v ≠ TargetAirPurifierState_AUTO →
       handleTargetAirPurifierStateSet this v w =
         Some (tt, controlled a
           {| EagleControlData.power := 1; EagleControlData.heatStatus := 0;
              EagleControlData.mode := EagleMode.Manual;
              EagleControlData.cadr := 47;
              EagleControlData.denoise := 0 |} w)).
Proof.
  intros Ha Hs. repeat split.
  - unfold handleActiveSet. run Ha. rewrite Hs. run Ha.
    by rewrite bool_decide_eq_true_2.
  - intros N. unfold handleRotationSpeedSet. run Ha. rewrite Hs. by run Ha.
  - intros v Hv. unfold handleActiveSet. run Ha. rewrite Hs. run Ha.
    by rewrite bool_decide_eq_false_2.
  - unfold handleTargetAirPurifierStateSet. run Ha. rewrite Hs. run Ha.
    by rewrite bool_decide_eq_true_2.
  - intros v Hv. unfold handleTargetAirPurifierStateSet. run Ha.
    rewrite Hs. run Ha. by rewrite bool_decide_eq_false_2.
Qed.

(** ** Reads while the status is unknown *)

(** C2: with no status snapshot, each of the seven reads succeeds, leaves
    the state as it was and returns its default: Active INACTIVE,
    CurrentAirPurifierState INACTIVE, TargetAirPurifierState MANUAL,
    RotationSpeed 0, FilterChangeIndication FILTER_OK, FilterLifeLevel 100
    and FirmwareRevision "N/A". *)
Theorem unknown_status_reads_default this a w :
  heap w !! accessory this = Some a →
  status (context a) = None →
  handleActiveGet this w = Some (Active_INACTIVE, w)
  ∧ handleCurrentAirPurifierStateGet this w =
      Some (CurrentAirPurifierState_INACTIVE, w)
  ∧ handleTargetAirPurifierStateGet this w =
      Some (TargetAirPurifierState_MANUAL, w)
  ∧ handleRotationSpeedGet this w = Some (0, w)
  ∧ handleFilterChangeIndicationGet this w =
      Some (FilterChangeIndication_FILTER_OK, w)
  ∧ handleFilterLifeLevelGet this w = Some (100, w)
  ∧ handleFirmwareRevisionGet this w = Some ("N/A", w).
Proof.
  intros Ha Hs.
  unfold handleActiveGet, handleCurrentAirPurifierStateGet,
    handleTargetAirPurifierStateGet, handleRotationSpeedGet,
    handleFilterChangeIndicationGet, handleFilterLifeLevelGet,
    handleFirmwareRevisionGet.
  run Ha. by rewrite Hs.
Qed.

(** ** Filter maintenance *)

(** C6: with a status snapshot, FilterChangeIndication reads CHANGE_FILTER
    exactly when the largest of the three filter percentages is above 80
    and FILTER_OK otherwise; at exactly 80 it reads FILTER_OK.  (The two
    constants of the host are taken to differ.) *)
Theorem filter_change_indication_threshold this a s w :
  FilterChangeIndication_CHANGE_FILTER ≠ FilterChangeIndication_FILTER_OK →
  heap w !! accessory this = Some a →
  status (context a) = Some s →
  let m := Z.max (Z.max (EagleStatusData.g4Percent s)
                        (EagleStatusData.carbonPercent s))
                 (EagleStatusData.hepaPercent s) in
  ∃ v, handleFilterChangeIndicationGet this w = Some (v, w)
    ∧ (v = FilterChangeIndication_CHANGE_FILTER ↔ m > 80)
    ∧ (v = FilterChangeIndication_FILTER_OK ↔ m ≤ 80)
    ∧ (m = 80 → v = FilterChangeIndication_FILTER_OK).
Proof.
  intros Hne Ha Hs m. unfold handleFilterChangeIndicationGet.
  run Ha. rewrite Hs. fold m. unfold maxPercent. fold m.
  case_bool_decide as Hm; eexists; (split; [reflexivity|]).
  - repeat split; try done; intros; first [lia | congruence].
  - repeat split; try done; intros; first [lia | congruence].
Qed.

(** C7: with a status snapshot, FilterLifeLevel reads 100 minus the
    largest of the three filter percentages, so the two always add up to
    100. *)
Theorem filter_life_level_complement this a s w :
  heap w !! accessory this = Some a →
  status (context a) = Some s →
  let m := Z.max (Z.max (EagleStatusData.g4Percent s)
                        (EagleStatusData.carbonPercent s))
                 (EagleStatusData.hepaPercent s) in
  ∃ v, handleFilterLifeLevelGet this w = Some (v, w)
    ∧ v = 100 - m
    ∧ v + m = 100.
Proof.
  intros Ha Hs m. unfold handleFilterLifeLevelGet.
  run Ha. rewrite Hs. unfold maxPercent. fold m.
  eexists. split; [reflexivity|]. lia.
Qed.

(** ** Writes while the status is known *)

(** C8: with a status snapshot, writing AUTO to TargetAirPurifierState
    issues [device(id).ai()] for the accessory's device and nothing else,
    and writing MANUAL issues [device(id).cadr(c)] with [c] the cadr of
    the snapshot.  (MANUAL and AUTO are taken to differ.) *)
Theorem known_status_target_state_write this a s w :
  TargetAirPurifierState_MANUAL ≠ TargetAirPurifierState_AUTO →
  heap w !! accessory this = Some a →
  status (context a) = Some s →
  handleTargetAirPurifierStateSet this TargetAirPurifierState_AUTO w =
    Some (tt, sent (device_ai (id (device (context a)))) w)
  ∧ handleTargetAirPurifierStateSet this TargetAirPurifierState_MANUAL w =
    Some (tt, sent (device_cadr (id (device (context a)))
                      (EagleStatusData.cadr s)) w).
Proof.
  intros Hne Ha Hs. unfold handleTargetAirPurifierStateSet. split.
  - run Ha. rewrite Hs. by rewrite bool_decide_eq_true_2.
  - run Ha. rewrite Hs. by rewrite bool_decide_eq_false_2.
Qed.

(** ** The firmware revision *)

(** C9, as amended: with a status snapshot, FirmwareRevision reads the
    snapshot's [version] whenever that string is not empty, and "N/A"
    when it is empty. *)
Theorem firmware_revision_read this a s w :
  heap w !! accessory this = Some a →
  status (context a) = Some s →
  (EagleStatusData.version s ≠ "" →
     handleFirmwareRevisionGet this w =
       Some (EagleStatusData.version s, w))
  ∧ (EagleStatusData.version s = "" →
     handleFirmwareRevisionGet this w = Some ("N/A", w)).
Proof.
  intros Ha Hs. unfold handleFirmwareRevisionGet. run Ha. rewrite Hs.
  split; intros Hv; by case_decide.
Qed.

(** ** Telemetry for a device the registry does not know *)

Lemma unknown_device_drop (st : EagleStatus.t) w :
  JsMap.get (uuid_generate (toString (EagleStatus.deviceId st)))
    (accessories w) = None →
  ∃ w', onEagleUpdate st w = Some (tt, w')
    ∧ w' = logged "Receive a status update from device:"
             (EagleStatus.deviceId st) w
    ∧ accessories w' = accessories w
    ∧ heap w' = heap w.
Proof.
  intros Hget. eexists. split; [|done].
  unfold onEagleUpdate, log_info, gets, modify, mbind, M_bind. cbn.
  by rewrite Hget.
Qed.

(** C5: an update whose device identifier has no entry in [accessories]
    completes without an error; it writes one log line and changes nothing
    else: no entry is added to the map and no accessory object, hence no
    cached snapshot, is touched. *)
Theorem unknown_device_update_dropped (st : EagleStatus.t) w :
  JsMap.get (uuid_generate (toString (EagleStatus.deviceId st)))
    (accessories w) = None →
  ∃ w', onEagleUpdate st w = Some (tt, w')
    ∧ w' = logged "Receive a status update from device:"
             (EagleStatus.deviceId st) w
    ∧ accessories w' = accessories w
    ∧ heap w' = heap w.
Proof. apply unknown_device_drop. Qed.

(** ** The [accessories] map *)

Lemma JsMap_get_elem_of {V} k (v : V) m :
  JsMap.get k m = Some v → (k, v) ∈ m.
Proof.
  induction m as [|[k' v'] m IH]; simpl; [done|].
  case_decide as Hk.
  - intros [= ->]. subst. left.
  - intros. right. auto.
Qed.

Lemma JsMap_set_fresh {V} k (v : V) m :
  JsMap.get k m = None → JsMap.set k v m = m ++ [(k, v)].
Proof.
  induction m as [|[k' v'] m IH]; simpl; [done|].
  case_decide; [done|]. intros. f_equal. auto.
Qed.

Lemma JsMap_set_values {V} k (v : V) m (P : V → Prop) :
  P v → Forall (λ e, P e.2) m → Forall (λ e, P e.2) (JsMap.set k v m).
Proof.
  intros Hv. induction 1 as [|[k' v'] m Hx Hm IH]; simpl.
  - by constructor.
  - case_decide; constructor; auto.
Qed.

(** ** Calls on the host *)

Lemma unregistered_app l1 l2 :
  unregistered (l1 ++ l2) = unregistered l1 ++ unregistered l2.
Proof.
  induction l1 as [|[]]; simpl; [done|done|]. by rewrite IHl1, (assoc _).
Qed.

Lemma unregistered_prune_calls seen es :
  unregistered (prune_calls seen es) = (filter (λ e, e.1 ∉ seen) es).*2.
Proof.
  unfold prune_calls. generalize (filter (λ e, e.1 ∉ seen) es).
  intros l. induction l as [|e l IH]; csimpl; [done|]. by rewrite IH.
Qed.

(** ** Pruning *)

Lemma cleanUpEntry_run e w :
  cleanUpEntry e w =
    Some (tt, if bool_decide (e.1 ∈ discoveredUuids w) then w
              else set_api_calls
                     (λ l, l ++ [unregisterPlatformAccessories
                                   pluginIdentifier platformName [e.2]]) w).
Proof.
  unfold cleanUpEntry, gets, includes, api_call, modify, mbind, M_bind.
  by case_bool_decide.
Qed.

Lemma for_of_cleanUpEntry es w :
  for_of es cleanUpEntry w =
    Some (tt, set_api_calls
                (λ l, l ++ prune_calls (discoveredUuids w) es) w).
Proof.
  revert w. induction es as [|e es IH]; intros w; simpl.
  - unfold mret, M_ret, prune_calls. destruct w; unfold set_api_calls; simpl.
    by rewrite (right_id_L [] _).
  - erewrite bind_Some by apply cleanUpEntry_run.
    rewrite IH. unfold prune_calls. rewrite filter_cons.
    case_bool_decide as Hin.
    + by rewrite decide_False by (by intros ?).
    + rewrite decide_True by done. unfold set_api_calls. csimpl.
      by rewrite <- (assoc_L _).
Qed.

Lemma cleanUpObsolete_run w :
  cleanUpObsolete w =
    Some (tt, set_api_calls
                (λ l, l ++ prune_calls (discoveredUuids w) (accessories w))
                w).
Proof.
  unfold cleanUpObsolete, gets, mbind, M_bind, JsMap.entries. simpl.
  apply for_of_cleanUpEntry.
Qed.

(** ** Discovery *)

Lemma grows_refl w : grows [] w w.
Proof.
  split; try done.
  - exists []. by rewrite (right_id_L [] _).
  - exists []. by rewrite (right_id_L [] _).
  - by rewrite (right_id_L [] _).
  - exists []. by rewrite (right_id_L [] _).
Qed.

Lemma grows_trans (seen1 seen2 : list string) w1 w2 w3 :
  grows seen1 w1 w2 → grows seen2 w2 w3 → grows (seen1 ++ seen2) w1 w3.
Proof.
  intros [[x1 Hh1] Hc1 (n1 & Ha1 & Hn1) Hd1 (c1 & Hp1 & Hu1) Hx1]
         [[x2 Hh2] Hc2 (n2 & Ha2 & Hn2) Hd2 (c2 & Hp2 & Hu2) Hx2].
  split.
  - exists (x1 ++ x2). by rewrite Hh2, Hh1, (assoc_L _).
  - congruence.
  - exists (n1 ++ n2). split; [by rewrite Ha2, Ha1, (assoc_L _)|].
    apply Forall_app. split.
    + eapply Forall_impl; [exact Hn1|]. intros e He.
      apply elem_of_app. by left.
    + eapply Forall_impl; [exact Hn2|]. intros e He.
      apply elem_of_app. by right.
  - by rewrite Hd2, Hd1, (assoc_L _).
  - exists (c1 ++ c2). split; [by rewrite Hp2, Hp1, (assoc_L _)|].
    by rewrite unregistered_app, Hu1, Hu2.
  - congruence.
Qed.

Lemma restoreAccessory_run r a w :
  heap w !! r = Some a →
  restoreAccessory r w =
    Some (tt, set_handlers (λ l, l ++ [{| accessory := r |}])
                (logged "Restoring existing accessory from cache:"
                   (id (device (context a))) w)).
Proof.
  intros Ha. unfold restoreAccessory.
  by erewrite bind_Some by (apply deref_Some, Ha).
Qed.

Lemma registerAccessory_run r a w :
  heap w !! r = Some a →
  registerAccessory r w =
    Some (tt, set_api_calls
                (λ l, l ++ [registerPlatformAccessories pluginIdentifier
                              platformName [r]])
                (set_handlers (λ l, l ++ [{| accessory := r |}])
                   (set_accessories (JsMap.set (UUID a) r)
                      (logged "Adding new accessory:"
                         (id (device (context a))) w)))).
Proof.
  intros Ha. unfold registerAccessory.
  by erewrite bind_Some by (apply deref_Some, Ha).
Qed.

Lemma registerDevice_grows d w :
  wf w →
  ∃ w', registerDevice d w = Some (tt, w') ∧ wf w'
        ∧ grows [uuid_of d] w w'.
Proof.
  intros Hwf. unfold registerDevice. fold (uuid_of d).
  erewrite bind_Some by (unfold gets; reflexivity).
  destruct (JsMap.get (uuid_of d) (accessories w)) as [r|] eqn:Hget.
  - assert (is_Some (heap w !! r)) as [a Ha].
    { unfold wf in Hwf. rewrite Forall_forall in Hwf.
      apply (Hwf (uuid_of d, r)). by apply JsMap_get_elem_of. }
    erewrite bind_Some by (by apply restoreAccessory_run).
    eexists. split; [reflexivity|]. split; [exact Hwf|].
    split; simpl; try done.
    + exists []. by rewrite (right_id_L [] _).
    + exists []. by rewrite (right_id_L [] _).
    + exists []. by rewrite (right_id_L [] _).
  - erewrite bind_Some; cycle 1.
    { erewrite bind_Some by (unfold alloc; reflexivity).
      apply registerAccessory_run. simpl.
      by rewrite lookup_app_r, Nat.sub_diag. }
    eexists. split; [reflexivity|]. simpl.
    split.
    + unfold wf. simpl. rewrite (JsMap_set_fresh _ _ _ Hget).
      apply Forall_app. split.
      * eapply Forall_impl; [exact Hwf|]. intros e [a Ha]. simpl.
        exists a. by apply lookup_app_l_Some.
      * constructor; [|constructor]. simpl.
        rewrite lookup_app_r, Nat.sub_diag by done. by eexists.
    + split; simpl; try done.
      * by eexists.
      * rewrite (JsMap_set_fresh _ _ _ Hget).
        eexists. split; [done|]. constructor; [|constructor].
        by apply list_elem_of_singleton.
      * by eexists.
Qed.

Lemma for_of_registerDevice ds w :
  wf w →
  ∃ w', for_of ds registerDevice w = Some (tt, w') ∧ wf w'
        ∧ grows (uuid_of <$> ds) w w'.
Proof.
  revert w. induction ds as [|d ds IH]; intros w Hwf; simpl.
  - exists w. split; [done|]. split; [done|]. apply grows_refl.
  - destruct (registerDevice_grows d w Hwf) as (w1 & E1 & Hwf1 & G1).
    destruct (IH w1 Hwf1) as (w2 & E2 & Hwf2 & G2).
    exists w2. erewrite bind_Some by exact E1.
    split; [exact E2|]. split; [exact Hwf2|].
    apply (grows_trans [uuid_of d] _ _ _ _ G1 G2).
Qed.

Lemma registerDevices_grows w :
  wf w →
  ∃ w', registerDevices w = Some (tt, w') ∧ wf w'
        ∧ grows (uuid_of <$> devices (config w)) w w'.
Proof.
  intros Hwf. unfold registerDevices, gets, mbind, M_bind.
  by apply for_of_registerDevice.
Qed.

Lemma registerDevice_new d w :
  JsMap.get (uuid_of d) (accessories w) = None →
  registerDevice d w =
    Some (tt,
      set_discoveredUuids (λ l, l ++ [uuid_of d])
        (set_api_calls
           (λ l, l ++ [registerPlatformAccessories pluginIdentifier
                         platformName [length (heap w)]])
           (set_handlers (λ l, l ++ [{| accessory := length (heap w) |}])
              (set_accessories (JsMap.set (uuid_of d) (length (heap w)))
                 (logged "Adding new accessory:" (id d)
                    (set_heap
                       (λ h, h ++ [{| displayName := "AIRMX Pro";
                                      UUID := uuid_of d;
                                      context := {| device := d;
                                                    status := None |} |}])
                       w)))))).
Proof.
  intros Hget. unfold registerDevice. fold (uuid_of d).
  erewrite bind_Some by (unfold gets; reflexivity). rewrite Hget.
  erewrite bind_Some; [reflexivity|].
  erewrite bind_Some by (unfold alloc; reflexivity).
  apply (registerAccessory_run _
           {| displayName := "AIRMX Pro"; UUID := uuid_of d;
              context := {| device := d; status := None |} |}).
  simpl. by rewrite lookup_app_r, Nat.sub_diag.
Qed.

Lemma registerDevice_existing d w r a :
  JsMap.get (uuid_of d) (accessories w) = Some r →
  heap w !! r = Some a →
  registerDevice d w =
    Some (tt,
      set_discoveredUuids (λ l, l ++ [uuid_of d])
        (set_handlers (λ l, l ++ [{| accessory := r |}])
           (logged "Restoring existing accessory from cache:"
              (id (device (context a))) w))).
Proof.
  intros Hget Ha. unfold registerDevice. fold (uuid_of d).
  erewrite bind_Some by (unfold gets; reflexivity). rewrite Hget.
  by erewrite bind_Some by (by apply restoreAccessory_run).
Qed.

Lemma HostRestore_run a w :
  step (HostRestore a) w =
    Some (tt,
      set_accessories (JsMap.set (UUID a) (length (heap w)))
        (logged "Loading accessory from cache:" (id (device (context a)))
           (set_heap (λ h, h ++ [a]) w))).
Proof.
  unfold step, configureAccessory.
  erewrite bind_Some by (unfold alloc; reflexivity).
  erewrite bind_Some; [reflexivity|].
  apply deref_Some. simpl. by rewrite lookup_app_r, Nat.sub_diag.
Qed.

Lemma prune_calls_cons_seen seen e es :
  e.1 ∈ seen → prune_calls seen (e :: es) = prune_calls seen es.
Proof.
  intros He. unfold prune_calls. rewrite filter_cons_False; [done|].
  by intros ?.
Qed.

Lemma prune_calls_cons_obsolete seen e es :
  e.1 ∉ seen →
  prune_calls seen (e :: es) =
    unregisterPlatformAccessories pluginIdentifier platformName [e.2]
      :: prune_calls seen es.
Proof. intros He. unfold prune_calls. by rewrite filter_cons_True. Qed.

Lemma didFinishLaunching_prunes w :
  wf w →
  ∃ w' calls,
    didFinishLaunching w = Some (tt, w') ∧ wf w'
    ∧ (∃ extra, heap w' = heap w ++ extra)
    ∧ api_calls w' = api_calls w ++ calls
    ∧ unregistered calls =
        (filter (λ e, e.1 ∉ discoveredUuids w
                             ++ (uuid_of <$> devices (config w)))
                (accessories w)).*2.
Proof.
  intros Hwf.
  destruct (registerDevices_grows w Hwf)
    as (w1 & E1 & Hwf1 & [Hh Hc (new & Ha & Hnew) Hd (c & Hp & Hu) Hx]).
  unfold didFinishLaunching. erewrite bind_Some by exact E1.
  rewrite cleanUpObsolete_run.
  exists (set_api_calls
            (λ l, l ++ prune_calls (discoveredUuids w1) (accessories w1))
            w1),
         (c ++ prune_calls (discoveredUuids w1) (accessories w1)).
  split; [done|]. split; [exact Hwf1|]. split; [exact Hh|].
  split; [simpl; by rewrite Hp, (assoc_L _)|].
  rewrite unregistered_app, Hu, unregistered_prune_calls, Hd, Ha.
  rewrite filter_app. simpl. f_equal.
  assert (filter (λ e : string * ref,
            e.1 ∉ discoveredUuids w ++ (uuid_of <$> devices (config w)))
            new = []) as ->; [|by rewrite (right_id_L [] _)].
  clear Ha. induction Hnew as [|e new He Hnew IH]; [done|].
  rewrite filter_cons_False; [done|].
  intros Hn. apply Hn, elem_of_app. by right.
Qed.

Lemma two_pass_scenario (A B : Device) (m : string) :
  uuid_of A ≠ uuid_of B →
  ∃ w1 w2 rA rB,
    launch [] (AirmxPlatform {| mqtt := m; devices := [A; B] |})
      = Some (tt, w1)
    ∧ launch (host_cache [] w1)
        (AirmxPlatform {| mqtt := m; devices := [A] |}) = Some (tt, w2)
    ∧ JsMap.get (uuid_of A) (accessories w2) = Some rA
    ∧ JsMap.get (uuid_of B) (accessories w2) = Some rB
    ∧ (λ a, device (context a)) <$> (heap w2 !! rA) = Some A
    ∧ (λ a, device (context a)) <$> (heap w2 !! rB) = Some B
    ∧ unregistered (api_calls w2) = [rB]
    ∧ rA ∉ unregistered (api_calls w2).
Proof.
  intros Hne.
  assert (uuid_of B ≠ uuid_of A) as Hne' by done.
  eexists _, _, 0%nat, 1%nat.
  split.
  { unfold launch, step, didFinishLaunching, registerDevices. simpl for_of.
    erewrite bind_Some by reflexivity.
    erewrite bind_Some; cycle 1.
    { erewrite bind_Some by (unfold gets; reflexivity). simpl.
      erewrite bind_Some by (by apply registerDevice_new).
      erewrite bind_Some; [reflexivity|].
      apply registerDevice_new. simpl. by rewrite decide_False. }
    rewrite cleanUpObsolete_run. simpl.
    rewrite decide_False by done.
    rewrite prune_calls_cons_seen by (simpl; left).
    rewrite prune_calls_cons_seen by (simpl; right; left).
    reflexivity. }
  unfold host_cache. simpl.
  split.
  { unfold launch. simpl for_of.
    erewrite bind_Some; cycle 1.
    { erewrite bind_Some by apply HostRestore_run.
      erewrite bind_Some by apply HostRestore_run. reflexivity. }
    unfold step, didFinishLaunching, registerDevices.
    erewrite bind_Some; cycle 1.
    { erewrite bind_Some by (unfold gets; reflexivity). simpl.
      erewrite bind_Some; [reflexivity|].
      eapply registerDevice_existing; simpl.
      - rewrite decide_False by done. simpl. by rewrite decide_True.
      - reflexivity. }
    rewrite cleanUpObsolete_run. simpl.
    rewrite decide_False by done.
    rewrite prune_calls_cons_seen by (simpl; left).
    rewrite prune_calls_cons_obsolete; cycle 1.
    { simpl. by intros ?%list_elem_of_singleton. }
    reflexivity. }
  repeat (simpl; first [rewrite decide_True by done
                       |rewrite decide_False by done]).
  repeat split; try done.
  by intros ?%list_elem_of_singleton.
Qed.

(** ** Telemetry for a known device *)

Lemma onEagleUpdate_known (st : EagleStatus.t) r a w :
  JsMap.get (uuid_generate (toString (EagleStatus.deviceId st)))
    (accessories w) = Some r →
  heap w !! r = Some a →
  onEagleUpdate st w =
    Some (tt,
      set_heap (λ h, <[r := with_status (Some (snapshot st)) a]> h)
        (logged "Update the current status to device:"
           (EagleStatus.deviceId st)
           (logged "Receive a status update from device:"
              (EagleStatus.deviceId st) w))).
Proof.
  intros Hget Ha. unfold onEagleUpdate.
  erewrite bind_Some by (unfold log_info, modify; reflexivity).
  erewrite bind_Some by (unfold gets; reflexivity). simpl. rewrite Hget.
  erewrite bind_Some by (unfold log_info, modify; reflexivity).
  unfold assign_status.
  by erewrite bind_Some by (by apply deref_Some).
Qed.

(** ** The handlers, one by one *)

Lemma set_handlers_send this a value w :
  heap w !! accessory this = Some a →
  (∃ c, handleActiveSet this value w = Some (tt, sent c w))
  ∧ (∃ c, handleTargetAirPurifierStateSet this value w
            = Some (tt, sent c w))
  ∧ (∃ c, handleRotationSpeedSet this value w = Some (tt, sent c w)).
Proof.
  intros Ha.
  unfold handleActiveSet, handleTargetAirPurifierStateSet,
    handleRotationSpeedSet.
  run Ha. destruct (status (context a)) as [s|]; run Ha;
    repeat case_bool_decide; repeat split; by eexists.
Qed.

Lemma onGet_reads c this a w :
  heap w !! accessory this = Some a →
  ∃ v, onGet c this w = Some (v, w).
Proof.
  intros Ha. destruct c; unfold onGet, fmap, M_fmap;
    [unfold handleFirmwareRevisionGet
    |unfold handleActiveGet
    |unfold handleCurrentAirPurifierStateGet
    |unfold handleTargetAirPurifierStateGet
    |unfold handleRotationSpeedGet
    |unfold handleFilterChangeIndicationGet
    |unfold handleFilterLifeLevelGet];
    run Ha; eauto.
Qed.

(** ** Every callback keeps the state well-formed *)

Lemma wf_AirmxPlatform cfg : wf (AirmxPlatform cfg).
Proof. constructor. Qed.

Lemma step_frame e w :
  wf w → valid_event w e →
  ∃ w', step e w = Some (tt, w') ∧ wf w'
    ∧ ((∃ st, e = EagleUpdate st)
       ∨ ∀ r a, heap w !! r = Some a → heap w' !! r = Some a).
Proof.
  intros Hwf Hv. destruct e as [cached| |st|c this|this v|this v|this v].
  - rewrite HostRestore_run. eexists. split; [done|]. split.
    + unfold wf. simpl.
      apply (JsMap_set_values _ _ _
               (λ r, is_Some ((heap w ++ [cached]) !! r))).
      * rewrite lookup_app_r, Nat.sub_diag by done. by eexists.
      * eapply Forall_impl; [exact Hwf|]. intros e [a Ha].
        exists a. by apply lookup_app_l_Some.
    + right. intros r a Ha. simpl. by apply lookup_app_l_Some.
  - destruct (didFinishLaunching_prunes w Hwf)
      as (w' & calls & E & Hwf' & [extra Hh] & _).
    exists w'. split; [exact E|]. split; [exact Hwf'|].
    right. intros r a Ha. rewrite Hh. by apply lookup_app_l_Some.
  - simpl.
    destruct (JsMap.get (uuid_generate (toString (EagleStatus.deviceId st)))
                (accessories w)) as [r|] eqn:Hget.
    + assert (is_Some (heap w !! r)) as [a Ha].
      { unfold wf in Hwf. rewrite Forall_forall in Hwf.
        eapply (Hwf (_, r)). by apply JsMap_get_elem_of. }
      rewrite (onEagleUpdate_known st r a w Hget Ha).
      eexists. split; [done|]. split; [|left; by eexists].
      unfold wf. simpl. eapply Forall_impl; [exact Hwf|].
      intros e He. apply lookup_lt_is_Some. rewrite length_insert.
      by apply lookup_lt_is_Some.
    + destruct (unknown_device_drop st w Hget) as (w' & E & -> & _).
      eexists. split; [exact E|]. split; [exact Hwf|]. left. by eexists.
  - destruct Hv as [a Ha]. simpl.
    destruct (onGet_reads c this a w Ha) as [v E].
    erewrite bind_Some by exact E.
    exists w. split; [done|]. split; [exact Hwf|]. by right.
  - destruct Hv as [a Ha].
    destruct (set_handlers_send this a v w Ha) as ([c E] & _).
    exists (sent c w). split; [exact E|]. split; [exact Hwf|]. by right.
  - destruct Hv as [a Ha].
    destruct (set_handlers_send this a v w Ha) as (_ & [c E] & _).
    exists (sent c w). split; [exact E|]. split; [exact Hwf|]. by right.
  - destruct Hv as [a Ha].
    destruct (set_handlers_send this a v w Ha) as (_ & _ & [c E]).
    exists (sent c w). split; [exact E|]. split; [exact Hwf|]. by right.
Qed.

(** ** Reachable states *)

Lemma bind_deref_inv {B} r (f : PlatformAccessory → M B) w y :
  (deref r ≫= f) w = Some y → is_Some (heap w !! r).
Proof.
  destruct y as [y w']. intros (a & w1 & Hd & _)%bind_inv.
  apply deref_inv in Hd as [Hd _]. by exists a.
Qed.

Lemma step_valid e w y : step e w = Some y → valid_event w e.
Proof.
  destruct e as [cached| |st|c this|this v|this v|this v]; simpl; try done.
  - destruct y as [y w']. intros (x & w1 & Hg & _)%bind_inv. revert Hg.
    destruct c; unfold onGet, fmap, M_fmap;
      [destruct (handleFirmwareRevisionGet this w) eqn:E
      |destruct (handleActiveGet this w) eqn:E
      |destruct (handleCurrentAirPurifierStateGet this w) eqn:E
      |destruct (handleTargetAirPurifierStateGet this w) eqn:E
      |destruct (handleRotationSpeedGet this w) eqn:E
      |destruct (handleFilterChangeIndicationGet this w) eqn:E
      |destruct (handleFilterLifeLevelGet this w) eqn:E];
      try done; intros _; by eapply bind_deref_inv.
  - apply bind_deref_inv.
  - apply bind_deref_inv.
  - apply bind_deref_inv.
Qed.

(** Every state the plugin reaches from a fresh platform object, whatever
    callbacks run and in whatever order, is well-formed. *)
Lemma reachable_wf (es : list Event) cfg w :
  for_of es step (AirmxPlatform cfg) = Some (tt, w) → wf w.
Proof.
  generalize (wf_AirmxPlatform cfg). generalize (AirmxPlatform cfg).
  induction es as [|e es IH]; intros w0 Hwf; simpl.
  - by intros [= <-].
  - intros ([] & w1 & E & Hrest)%bind_inv.
    destruct (step_frame e w0 Hwf (step_valid _ _ _ E)) as (w1' & E' & Hwf' & _).
    rewrite E in E'. injection E' as <-. by eapply IH.
Qed.

(** ** Pruning after discovery *)

(** C3: pruning unregisters exactly the accessories that were in the
    [accessories] map before the pass and whose identifier is not that of
    a configured device, in the order of the map.  In particular, after a
    first start with devices [A, B] and a second start with device [A]
    alone, on the accessories the host kept from the first, the second
    start unregisters B's accessory and not A's.  (The pass starts with no
    discovered identifier, and A and B have distinct identifiers.) *)
Theorem prune_unregisters_exactly_obsolete w (A B : Device) (m : string) :
  wf w →
  discoveredUuids w = [] →
  uuid_of A ≠ uuid_of B →
  (∃ w' calls,
     didFinishLaunching w = Some (tt, w')
     ∧ api_calls w' = api_calls w ++ calls
     ∧ unregistered calls =
         (filter (λ e, e.1 ∉ uuid_of <$> devices (config w))
                 (accessories w)).*2)
  ∧ (∃ w1 w2 rA rB,
       launch [] (AirmxPlatform {| mqtt := m; devices := [A; B] |})
         = Some (tt, w1)
       ∧ launch (host_cache [] w1)
           (AirmxPlatform {| mqtt := m; devices := [A] |}) = Some (tt, w2)
       ∧ JsMap.get (uuid_of A) (accessories w2) = Some rA
       ∧ JsMap.get (uuid_of B) (accessories w2) = Some rB
       ∧ (λ a, device (context a)) <$> (heap w2 !! rA) = Some A
       ∧ (λ a, device (context a)) <$> (heap w2 !! rB) = Some B
       ∧ unregistered (api_calls w2) = [rB]
       ∧ rA ∉ unregistered (api_calls w2)).
Proof.
  intros Hwf Hd Hne. split; [|by apply two_pass_scenario].
  destruct (didFinishLaunching_prunes w Hwf)
    as (w' & calls & E & _ & _ & Hp & Hu).
  exists w', calls. rewrite Hd in Hu. by repeat split.
Qed.

(** C10: pruning calls [unregisterPlatformAccessories] for an obsolete
    accessory and leaves the [accessories] map as it was, so the entry
    stays; an update that arrives afterwards for the same identifier still
    finds the accessory and replaces its cached snapshot. *)
Theorem pruned_accessory_still_updated
    (uuid : string) r a (st : EagleStatus.t) w :
  JsMap.get uuid (accessories w) = Some r →
  heap w !! r = Some a →
  uuid ∉ discoveredUuids w →
  uuid_generate (toString (EagleStatus.deviceId st)) = uuid →
  ∃ w1 w2,
    cleanUpObsolete w = Some (tt, w1)
    ∧ unregisterPlatformAccessories pluginIdentifier platformName [r]
        ∈ api_calls w1
    ∧ accessories w1 = accessories w
    ∧ JsMap.get uuid (accessories w1) = Some r
    ∧ onEagleUpdate st w1 = Some (tt, w2)
    ∧ heap w2 !! r = Some (with_status (Some (snapshot st)) a)
    ∧ accessories w2 = accessories w.
Proof.
  intros Hget Ha Hobs Hst. rewrite cleanUpObsolete_run.
  eexists _, _. split; [reflexivity|]. split.
  { simpl. apply elem_of_app. right. unfold prune_calls.
    apply list_elem_of_fmap. exists (uuid, r). split; [done|].
    apply list_elem_of_filter. split; [done|].
    by apply JsMap_get_elem_of. }
  split; [done|]. split; [done|]. split.
  { apply onEagleUpdate_known; simpl; [by rewrite Hst|exact Ha]. }
  split; [|done]. simpl. apply list_lookup_insert_eq.
  by eapply lookup_lt_Some.
Qed.

(** ** Who writes the cached status *)

(** C4: the three set handlers, whether the status is known or not, send
    one command to the AIRMX client and leave every accessory object, and
    so the cached status snapshot, as it was.  More generally, in a
    well-formed state every callback of the plugin runs to completion and
    keeps every existing accessory object unchanged unless it is a
    telemetry update; a telemetry update for a known device does replace
    that device's snapshot with the fields of the update. *)
Theorem only_telemetry_writes_status this a value w :
  heap w !! accessory this = Some a →
  (∃ w', handleActiveSet this value w = Some (tt, w')
         ∧ heap w' = heap w ∧ accessories w' = accessories w)
  ∧ (∃ w', handleTargetAirPurifierStateSet this value w = Some (tt, w')
           ∧ heap w' = heap w ∧ accessories w' = accessories w)
  ∧ (∃ w', handleRotationSpeedSet this value w = Some (tt, w')
           ∧ heap w' = heap w ∧ accessories w' = accessories w)
  ∧ (wf w → ∀ e, valid_event w e →
       ∃ w', step e w = Some (tt, w')
         ∧ ((∃ st, e = EagleUpdate st)
            ∨ ∀ r' a', heap w !! r' = Some a' → heap w' !! r' = Some a'))
  ∧ (∀ (st : EagleStatus.t) r' a',
       JsMap.get (uuid_generate (toString (EagleStatus.deviceId st)))
         (accessories w) = Some r' →
       heap w !! r' = Some a' →
       ∃ w', step (EagleUpdate st) w = Some (tt, w')
         ∧ heap w' !! r' = Some (with_status (Some (snapshot st)) a')).
Proof.
  intros Ha.
  destruct (set_handlers_send this a value w Ha)
    as ([c1 E1] & [c2 E2] & [c3 E3]).
  split; [by exists (sent c1 w)|]. split; [by exists (sent c2 w)|].
  split; [by exists (sent c3 w)|]. split.
  - intros Hwf e Hv.
    destruct (step_frame e w Hwf Hv) as (w' & E & _ & Hf). by exists w'.
  - intros st r' a' Hget Ha'. simpl.
    rewrite (onEagleUpdate_known st r' a' w Hget Ha').
    eexists. split; [reflexivity|]. simpl.
    apply list_lookup_insert_eq. by eapply lookup_lt_Some.
Qed.

(** * Further properties of the handlers *)

(** X1: with a status snapshot, writing ACTIVE to Active calls
    [device(id).on()] and any other value calls [device(id).off()], for the
    accessory's own device; nothing else changes and no full control command
    is sent. *)
Theorem known_status_active_write this a s value w :
  heap w !! accessory this = Some a →
  status (context a) = Some s →
  (value = Active_ACTIVE →
     handleActiveSet this value w
       = Some (tt, sent (device_on (id (device (context a)))) w))
  ∧ (value ≠ Active_ACTIVE →
     handleActiveSet this value w
       = Some (tt, sent (device_off (id (device (context a)))) w)).
Proof.
  intros Ha Hs. unfold handleActiveSet. run Ha. rewrite Hs.
  split; intros Hv.
  - by rewrite bool_decide_eq_true_2.
  - by rewrite bool_decide_eq_false_2.
Qed.

(** X2: with a status snapshot, writing RotationSpeed calls
    [device(id).cadr(value)] with the written value as it is, whatever the
    snapshot's power, mode or cadr; nothing else changes. *)
Theorem known_status_rotation_speed_write this a s value w :
  heap w !! accessory this = Some a →
  status (context a) = Some s →
  handleRotationSpeedSet this value w
    = Some (tt, sent (device_cadr (id (device (context a))) value) w).
Proof.
  intros Ha Hs. unfold handleRotationSpeedSet. run Ha. by rewrite Hs.
Qed.

(** X3: with a status snapshot, Active reads ACTIVE exactly when [power] is
    1, and CurrentAirPurifierState reads PURIFYING_AIR exactly when [power]
    is 1; so the two reads always agree, and any other [power] value reads
    as off.  (The two constants of each characteristic are taken to
    differ.) *)
Theorem known_status_power_reads this a s w :
  Active_ACTIVE ≠ Active_INACTIVE →
  CurrentAirPurifierState_PURIFYING_AIR ≠ CurrentAirPurifierState_INACTIVE →
  heap w !! accessory this = Some a →
  status (context a) = Some s →
  ∃ v1 v2,
    handleActiveGet this w = Some (v1, w)
    ∧ handleCurrentAirPurifierStateGet this w = Some (v2, w)
    ∧ (v1 = Active_ACTIVE ↔ EagleStatusData.power s = 1)
    ∧ (v2 = CurrentAirPurifierState_PURIFYING_AIR
       ↔ EagleStatusData.power s = 1)
    ∧ (EagleStatusData.power s ≠ 1 →
       v1 = Active_INACTIVE ∧ v2 = CurrentAirPurifierState_INACTIVE).
Proof.
  intros Hn1 Hn2 Ha Hs.
  unfold handleActiveGet, handleCurrentAirPurifierStateGet.
  run Ha. rewrite Hs. eexists _, _.
  split; [reflexivity|]. split; [reflexivity|].
  case_decide as Hp; repeat split; try done; intros; congruence.
Qed.

(** X4: with a status snapshot, TargetAirPurifierState reads AUTO exactly
    when [mode] is [EagleMode.Ai]; every other mode value, not only
    [EagleMode.Manual], reads MANUAL.  (MANUAL and AUTO are taken to
    differ.) *)
Theorem known_status_target_state_read this a s w :
  TargetAirPurifierState_AUTO ≠ TargetAirPurifierState_MANUAL →
  heap w !! accessory this = Some a →
  status (context a) = Some s →
  ∃ v,
    handleTargetAirPurifierStateGet this w = Some (v, w)
    ∧ (v = TargetAirPurifierState_AUTO ↔ EagleStatusData.mode s = 1)
    ∧ (EagleStatusData.mode s ≠ 1 → v = TargetAirPurifierState_MANUAL).
Proof.
  intros Hn Ha Hs. unfold handleTargetAirPurifierStateGet.
  run Ha. rewrite Hs. eexists. split; [reflexivity|].
  unfold EagleMode.Ai.
  case_decide as Hm; repeat split; try done; intros; congruence.
Qed.

(** X5: with a status snapshot, RotationSpeed reads the snapshot's [cadr]
    for every integer value of it: the [|| 0] fallback of the handler does
    not change any number, a zero throughput included. *)
Theorem known_status_rotation_speed_read this a s w :
  heap w !! accessory this = Some a →
  status (context a) = Some s →
  handleRotationSpeedGet this w = Some (EagleStatusData.cadr s, w).
Proof.
  intros Ha Hs. unfold handleRotationSpeedGet. run Ha. rewrite Hs.
  case_decide as Hc; [|done]. by rewrite Hc.
Qed.

(** X6: whatever the status and whatever the value, each of the three set
    handlers sends exactly one call to the AIRMX client, and that call is
    addressed to the device of the handler's own accessory. *)
Theorem writes_address_own_device this a value w :
  heap w !! accessory this = Some a →
  ∃ c1 c2 c3,
    handleActiveSet this value w = Some (tt, sent c1 w)
    ∧ handleTargetAirPurifierStateSet this value w = Some (tt, sent c2 w)
    ∧ handleRotationSpeedSet this value w = Some (tt, sent c3 w)
    ∧ call_device c1 = id (device (context a))
    ∧ call_device c2 = id (device (context a))
    ∧ call_device c3 = id (device (context a)).
Proof.
  intros Ha.
  unfold handleActiveSet, handleTargetAirPurifierStateSet,
    handleRotationSpeedSet.
  run Ha. destruct (status (context a)) as [s|]; run Ha;
    repeat case_bool_decide; eexists _, _, _; by repeat split.
Qed.

(** X7: the full control command is only ever sent while the status is
    unknown: with a status snapshot none of the three set handlers calls
    [airmx.control]. *)
Theorem known_status_never_sends_control this a s value w :
  heap w !! accessory this = Some a →
  status (context a) = Some s →
  ∀ e w',
    e ∈ [ActiveSet this value; TargetAirPurifierStateSet this value;
         RotationSpeedSet this value] →
    step e w = Some (tt, w') →
    ∃ c, airmx_calls w' = airmx_calls w ++ [c]
         ∧ ∀ i data, c ≠ control i data.
Proof.
  intros Ha Hs e w' He.
  repeat (apply elem_of_cons in He as [->|He]); [| | |by apply elem_of_nil in He];
    simpl.
  - unfold handleActiveSet. run Ha. rewrite Hs.
    case_bool_decide; intros [= <-]; by eexists.
  - unfold handleTargetAirPurifierStateSet. run Ha. rewrite Hs.
    case_bool_decide; intros [= <-]; by eexists.
  - unfold handleRotationSpeedSet. run Ha. rewrite Hs.
    intros [= <-]; by eexists.
Qed.

(** Reads only look at the accessory objects. *)
Lemma onGet_frame c this w1 w2 :
  heap w1 = heap w2 → fst <$> onGet c this w1 = fst <$> onGet c this w2.
Proof.
  intros Hh.
  destruct c; unfold onGet, fmap, M_fmap;
    [unfold handleFirmwareRevisionGet
    |unfold handleActiveGet
    |unfold handleCurrentAirPurifierStateGet
    |unfold handleTargetAirPurifierStateGet
    |unfold handleRotationSpeedGet
    |unfold handleFilterChangeIndicationGet
    |unfold handleFilterLifeLevelGet];
    unfold mbind, M_bind, deref, mret, M_ret; rewrite Hh;
    by destruct (heap w2 !! accessory this).
Qed.

(** X8: a read straight after a write still shows the state before the
    write: after any of the three set handlers has run, every one of the
    seven reads, on any accessory, returns the value it returned before. *)
Theorem read_after_write_unchanged e w w' :
  is_write e = true →
  step e w = Some (tt, w') →
  ∀ c this', fst <$> onGet c this' w' = fst <$> onGet c this' w.
Proof.
  intros He E c this'. apply onGet_frame.
  destruct e as [cached| |st|c0 this|this v|this v|this v]; try done;
    simpl in E.
  - destruct (bind_deref_inv _ _ _ _ E) as [a Ha].
    destruct (set_handlers_send this a v w Ha) as ([c1 E1] & _).
    rewrite E in E1. by injection E1 as ->.
  - destruct (bind_deref_inv _ _ _ _ E) as [a Ha].
    destruct (set_handlers_send this a v w Ha) as (_ & [c1 E1] & _).
    rewrite E in E1. by injection E1 as ->.
  - destruct (bind_deref_inv _ _ _ _ E) as [a Ha].
    destruct (set_handlers_send this a v w Ha) as (_ & _ & [c1 E1]).
    rewrite E in E1. by injection E1 as ->.
Qed.

(** * Further properties of the telemetry listener *)

(** X9: the snapshot is replaced as a whole.  After two updates in a row
    for the same known device the accessory objects are exactly what the
    second update alone would have left: nothing of the first survives. *)
Theorem successive_updates_last_wins (st1 st2 : EagleStatus.t) r a w :
  EagleStatus.deviceId st2 = EagleStatus.deviceId st1 →
  JsMap.get (uuid_generate (toString (EagleStatus.deviceId st1)))
    (accessories w) = Some r →
  heap w !! r = Some a →
  ∃ w1 w2 w2',
    onEagleUpdate st1 w = Some (tt, w1)
    ∧ onEagleUpdate st2 w1 = Some (tt, w2)
    ∧ onEagleUpdate st2 w = Some (tt, w2')
    ∧ heap w2 = heap w2'
    ∧ heap w2 !! r = Some (with_status (Some (snapshot st2)) a).
Proof.
  intros Hid Hget Ha.
  assert (r < length (heap w))%nat as Hlt by by eapply lookup_lt_Some.
  rewrite (onEagleUpdate_known st1 r a w Hget Ha).
  eexists _, _, _. split; [reflexivity|].
  split.
  { apply (onEagleUpdate_known st2 r
             (with_status (Some (snapshot st1)) a)); simpl.
    - by rewrite Hid.
    - by apply list_lookup_insert_eq. }
  split.
  { apply (onEagleUpdate_known st2 r a); [by rewrite Hid|done]. }
  simpl. rewrite list_insert_insert_eq. split; [done|].
  by apply list_lookup_insert_eq.
Qed.

(** X10: an update for a known device touches that accessory's status and
    the log, and nothing else: the accessory keeps its UUID, name and
    device, every other accessory object is unchanged, the map and the
    discovered identifiers are unchanged, no command is sent and the host
    is not called. *)
Theorem update_touches_one_status (st : EagleStatus.t) r a w :
  JsMap.get (uuid_generate (toString (EagleStatus.deviceId st)))
    (accessories w) = Some r →
  heap w !! r = Some a →
  ∃ w' a',
    onEagleUpdate st w = Some (tt, w')
    ∧ heap w' !! r = Some a'
    ∧ UUID a' = UUID a ∧ displayName a' = displayName a
    ∧ device (context a') = device (context a)
    ∧ length (heap w') = length (heap w)
    ∧ (∀ r', r' ≠ r → heap w' !! r' = heap w !! r')
    ∧ accessories w' = accessories w
    ∧ discoveredUuids w' = discoveredUuids w
    ∧ handlers w' = handlers w
    ∧ api_calls w' = api_calls w
    ∧ airmx_calls w' = airmx_calls w.
Proof.
  intros Hget Ha. rewrite (onEagleUpdate_known st r a w Hget Ha).
  eexists _, _. split; [reflexivity|]. simpl.
  split; [apply list_lookup_insert_eq; by eapply lookup_lt_Some|].
  repeat split; try done.
  - apply length_insert.
  - intros r' Hr. by apply list_lookup_insert_ne.
Qed.

(** X11: what an update brings is what the next reads show.  After an
    update for the device of a handler's accessory, RotationSpeed reads the
    update's [cadr], FilterLifeLevel reads 100 minus the largest of its
    three filter percentages, and FirmwareRevision reads its [version] when
    that is not empty. *)
Theorem update_then_read this (st : EagleStatus.t) a w :
  JsMap.get (uuid_generate (toString (EagleStatus.deviceId st)))
    (accessories w) = Some (accessory this) →
  heap w !! accessory this = Some a →
  ∃ w',
    onEagleUpdate st w = Some (tt, w')
    ∧ handleRotationSpeedGet this w' = Some (EagleStatus.cadr st, w')
    ∧ handleFilterLifeLevelGet this w' =
        Some (100 - Z.max (Z.max (EagleStatus.g4Percent st)
                                 (EagleStatus.carbonPercent st))
                          (EagleStatus.hepaPercent st), w')
    ∧ (EagleStatus.version st ≠ "" →
       handleFirmwareRevisionGet this w'
         = Some (EagleStatus.version st, w')).
Proof.
  intros Hget Ha.
  rewrite (onEagleUpdate_known st _ a w Hget Ha).
  eexists. split; [reflexivity|].
  match goal with |- context [handleRotationSpeedGet _ ?w0] =>
    assert (heap w0 !! accessory this
            = Some (with_status (Some (snapshot st)) a)) as Hw
      by (simpl; apply list_lookup_insert_eq; by eapply lookup_lt_Some)
  end.
  unfold handleRotationSpeedGet, handleFilterLifeLevelGet,
    handleFirmwareRevisionGet.
  run Hw. split.
  { case_decide as Hc; [|done]. by rewrite Hc. }
  split; [done|]. intros Hv. by case_decide.
Qed.

(** X12: the branch is taken anew at every write.  Once an update for the
    accessory's device has arrived, whatever the status was before, a
    RotationSpeed write calls [device(id).cadr(value)] and an Active=on
    write calls [device(id).on()]; the stub command is no longer used. *)
Theorem update_then_write this (st : EagleStatus.t) a value w :
  JsMap.get (uuid_generate (toString (EagleStatus.deviceId st)))
    (accessories w) = Some (accessory this) →
  heap w !! accessory this = Some a →
  ∃ w',
    onEagleUpdate st w = Some (tt, w')
    ∧ handleRotationSpeedSet this value w'
        = Some (tt, sent (device_cadr (id (device (context a))) value) w')
    ∧ handleActiveSet this Active_ACTIVE w'
        = Some (tt, sent (device_on (id (device (context a)))) w').
Proof.
  intros Hget Ha.
  rewrite (onEagleUpdate_known st _ a w Hget Ha).
  eexists. split; [reflexivity|].
  match goal with |- context [handleRotationSpeedSet _ _ ?w0] =>
    assert (heap w0 !! accessory this
            = Some (with_status (Some (snapshot st)) a)) as Hw
      by (simpl; apply list_lookup_insert_eq; by eapply lookup_lt_Some)
  end.
  unfold handleRotationSpeedSet, handleActiveSet. run Hw.
  by rewrite bool_decide_eq_true_2.
Qed.

(** * Further properties of the registry *)

Lemma JsMap_get_set {V} k (v : V) m : JsMap.get k (JsMap.set k v m) = Some v.
Proof.
  induction m as [|[k' v'] m IH]; simpl.
  - by rewrite decide_True.
  - case_decide as Hk; simpl.
    + by rewrite decide_True.
    + by rewrite decide_False.
Qed.



Lemma JsMap_get_None {V} k (m : JsMap.t V) :
  JsMap.get k m = None ↔ k ∉ m.*1.
Proof.
  induction m as [|[k0 v0] m IH]; simpl.
  - split; [intros _; apply not_elem_of_nil|done].
  - rewrite not_elem_of_cons. case_decide as Hk.
    + split; [done|]. by intros [? _].
    + rewrite IH. split; [done|]. by intros [_ ?].
Qed.

Lemma JsMap_get_app_Some {V} k (v : V) m m' :
  JsMap.get k m = Some v → JsMap.get k (m ++ m') = Some v.
Proof.
  induction m as [|[k0 v0] m IH]; simpl; [done|]. by case_decide.
Qed.

Lemma JsMap_get_app_None {V} k (m m' : JsMap.t V) :
  JsMap.get k m = None → JsMap.get k (m ++ m') = JsMap.get k m'.
Proof.
  induction m as [|[k0 v0] m IH]; simpl; [done|]. by case_decide.
Qed.

Lemma JsMap_set_keys_present {V} k (v : V) m :
  is_Some (JsMap.get k m) → (JsMap.set k v m).*1 = m.*1.
Proof.
  induction m as [|[k0 v0] m IH]; simpl.
  - by intros [? ?].
  - case_decide; simpl; [by subst|]. intros H'. f_equal. auto.
Qed.

Lemma JsMap_set_keys_NoDup {V} k (v : V) m :
  NoDup m.*1 → NoDup (JsMap.set k v m).*1.
Proof.
  destruct (JsMap.get k m) as [v0|] eqn:Hget.
  - by rewrite JsMap_set_keys_present by by eexists.
  - rewrite (JsMap_set_fresh _ _ _ Hget), fmap_snoc. intros Hnd.
    apply NoDup_app. split; [done|]. split; [|apply NoDup_singleton].
    intros x Hx ->%list_elem_of_singleton. by apply JsMap_get_None in Hget.
Qed.

Lemma JsMap_set_Forall {V} k (v : V) m (P : string * V → Prop) :
  P (k, v) → Forall P m → Forall P (JsMap.set k v m).
Proof.
  intros Hv. induction 1 as [|[k' v'] m Hx Hm IH]; simpl.
  - by constructor.
  - case_decide; constructor; auto.
Qed.



(** ** The registry stays consistent *)

Lemma keyed_wf w : keyed w → wf w.
Proof.
  unfold keyed, wf. intros Hk. eapply Forall_impl; [exact Hk|].
  intros e He. simpl in He. destruct (heap w !! e.2); [by eexists|done].
Qed.

Lemma consistent_ext w w' :
  heap w' = heap w → accessories w' = accessories w →
  consistent w → consistent w'.
Proof. unfold consistent, keyed. by intros -> ->. Qed.

Lemma consistent_add (a : PlatformAccessory) w w' :
  heap w' = heap w ++ [a] →
  accessories w' = JsMap.set (UUID a) (length (heap w)) (accessories w) →
  consistent w → consistent w'.
Proof.
  intros Hh Hm [Hk Hnd]. split.
  - unfold keyed. rewrite Hh, Hm. apply JsMap_set_Forall; simpl.
    + by rewrite lookup_app_r, Nat.sub_diag.
    + eapply Forall_impl; [exact Hk|]. intros e He. simpl in *.
      destruct (heap w !! e.2) as [a0|] eqn:E0; [|done].
      by rewrite (lookup_app_l_Some _ _ _ _ E0).
  - rewrite Hm. by apply JsMap_set_keys_NoDup.
Qed.

Lemma registerDevice_consistent d w :
  consistent w → ∃ w', registerDevice d w = Some (tt, w') ∧ consistent w'.
Proof.
  intros Hc.
  destruct (JsMap.get (uuid_of d) (accessories w)) as [r|] eqn:Hget.
  - assert (is_Some (heap w !! r)) as [a Ha].
    { pose proof (keyed_wf w (proj1 Hc)) as Hwf.
      unfold wf in Hwf. rewrite Forall_forall in Hwf.
      apply (Hwf (uuid_of d, r)). by apply JsMap_get_elem_of. }
    rewrite (registerDevice_existing d w r a Hget Ha).
    eexists. split; [reflexivity|]. by eapply consistent_ext.
  - rewrite (registerDevice_new d w Hget).
    eexists. split; [reflexivity|].
    by eapply (consistent_add
                 {| displayName := "AIRMX Pro"; UUID := uuid_of d;
                    context := {| device := d; status := None |} |}).
Qed.

Lemma for_of_preserves {A} (body : A → M unit) (I : World → Prop) l w :
  (∀ x w0, I w0 → ∃ w', body x w0 = Some (tt, w') ∧ I w') →
  I w → ∃ w', for_of l body w = Some (tt, w') ∧ I w'.
Proof.
  intros Hb. revert w. induction l as [|x l IH]; intros w Hw; simpl.
  - by exists w.
  - destruct (Hb x w Hw) as (w1 & E1 & Hw1).
    destruct (IH w1 Hw1) as (w2 & E2 & Hw2).
    exists w2. by erewrite bind_Some by exact E1.
Qed.

Lemma registerDevices_consistent w :
  consistent w → ∃ w', registerDevices w = Some (tt, w') ∧ consistent w'.
Proof.
  intros Hc. unfold registerDevices.
  erewrite bind_Some by (unfold gets; reflexivity).
  by apply for_of_preserves; [apply registerDevice_consistent|].
Qed.

Lemma step_consistent e w w' :
  consistent w → step e w = Some (tt, w') → consistent w'.
Proof.
  intros Hc E. pose proof (keyed_wf w (proj1 Hc)) as Hwf.
  destruct e as [cached| |st|c this|this v|this v|this v].
  - rewrite HostRestore_run in E. injection E as <-.
    by eapply (consistent_add cached).
  - simpl in E. unfold didFinishLaunching in E.
    destruct (registerDevices_consistent w Hc) as (w1 & E1 & Hc1).
    erewrite bind_Some in E by exact E1.
    rewrite cleanUpObsolete_run in E. injection E as <-.
    by eapply consistent_ext.
  - simpl in E.
    destruct (JsMap.get (uuid_generate (toString (EagleStatus.deviceId st)))
                (accessories w)) as [r|] eqn:Hget.
    + assert (is_Some (heap w !! r)) as [a Ha].
      { unfold wf in Hwf. rewrite Forall_forall in Hwf.
        eapply (Hwf (_, r)). by apply JsMap_get_elem_of. }
      rewrite (onEagleUpdate_known st r a w Hget Ha) in E.
      injection E as <-. destruct Hc as [Hk Hnd]. split; [|done].
      unfold keyed in *. simpl. eapply Forall_impl; [exact Hk|].
      intros e He. simpl in *.
      destruct (decide (e.2 = r)) as [Heq|Hne].
      * rewrite Heq in *.
        rewrite list_lookup_insert_eq by by eapply lookup_lt_Some.
        by rewrite Ha in He.
      * by rewrite list_lookup_insert_ne.
    + destruct (unknown_device_drop st w Hget) as (w1 & E1 & -> & _).
      rewrite E in E1. injection E1 as ->. by eapply consistent_ext.
  - pose proof (step_valid _ _ _ E) as [a Ha]. simpl in E.
    destruct (onGet_reads c this a w Ha) as [v Ev].
    erewrite bind_Some in E by exact Ev. by injection E as <-.
  - pose proof (step_valid _ _ _ E) as [a Ha]. simpl in E.
    destruct (set_handlers_send this a v w Ha) as ([c1 E1] & _).
    rewrite E in E1. injection E1 as ->. by eapply consistent_ext.
  - pose proof (step_valid _ _ _ E) as [a Ha]. simpl in E.
    destruct (set_handlers_send this a v w Ha) as (_ & [c1 E1] & _).
    rewrite E in E1. injection E1 as ->. by eapply consistent_ext.
  - pose proof (step_valid _ _ _ E) as [a Ha]. simpl in E.
    destruct (set_handlers_send this a v w Ha) as (_ & _ & [c1 E1]).
    rewrite E in E1. injection E1 as ->. by eapply consistent_ext.
Qed.

(** X14: in every state the plugin reaches from a fresh platform object,
    whatever callbacks run and in whatever order, each entry of the
    [accessories] map is filed under the UUID of the accessory it refers
    to, and no UUID has two entries. *)
Theorem reachable_consistent (es : list Event) cfg w :
  for_of es step (AirmxPlatform cfg) = Some (tt, w) →
  keyed w ∧ NoDup (accessories w).*1.
Proof.
  assert (consistent (AirmxPlatform cfg)) as H0.
  { split; [constructor|]. simpl. apply NoDup_nil_2. }
  revert H0. generalize (AirmxPlatform cfg).
  induction es as [|e es IH]; intros w0 Hc; simpl.
  - by intros [= <-].
  - intros ([] & w1 & E & Hrest)%bind_inv.
    eapply IH; [|exact Hrest]. by eapply step_consistent.
Qed.

(** ** What a discovery pass leaves behind *)

Lemma wf_lookup w k r :
  wf w → JsMap.get k (accessories w) = Some r → is_Some (heap w !! r).
Proof.
  intros Hwf Hget. unfold wf in Hwf. rewrite Forall_forall in Hwf.
  apply (Hwf (k, r)). by apply JsMap_get_elem_of.
Qed.

Lemma registerDevice_entry d w :
  wf w →
  ∃ w' r, registerDevice d w = Some (tt, w')
          ∧ handlers w' = handlers w ++ [{| accessory := r |}]
          ∧ JsMap.get (uuid_of d) (accessories w') = Some r.
Proof.
  intros Hwf.
  destruct (JsMap.get (uuid_of d) (accessories w)) as [r|] eqn:Hget.
  - destruct (wf_lookup w _ r Hwf Hget) as [a Ha].
    rewrite (registerDevice_existing d w r a Hget Ha).
    by eexists _, r.
  - rewrite (registerDevice_new d w Hget).
    eexists _, _. split; [reflexivity|]. split; [done|].
    simpl. apply JsMap_get_set.
Qed.

Lemma registerDevices_bound w :
  consistent w →
  ∃ w' hs,
    registerDevices w = Some (tt, w')
    ∧ handlers w' = handlers w ++ hs
    ∧ Forall2
        (λ d h,
           JsMap.get (uuid_of d) (accessories w') = Some (accessory h)
           ∧ ∃ a, heap w' !! accessory h = Some a ∧ UUID a = uuid_of d)
        (devices (config w)) hs.
Proof.
  intros Hc. unfold registerDevices.
  erewrite bind_Some by (unfold gets; reflexivity).
  generalize (devices (config w)). intros ds. revert w Hc.
  induction ds as [|d ds IH]; intros w Hc; simpl.
  - exists w, []. split; [done|]. split; [by rewrite (right_id_L [] _)|].
    constructor.
  - pose proof (keyed_wf w (proj1 Hc)) as Hwf.
    destruct (registerDevice_entry d w Hwf) as (w1 & r & E1 & Hh1 & Hg1).
    destruct (registerDevice_consistent d w Hc) as (w1' & E1' & Hc1).
    rewrite E1 in E1'. injection E1' as <-.
    destruct (IH w1 Hc1) as (w2 & hs & E2 & Hh2 & HF).
    destruct (for_of_registerDevice ds w1 (keyed_wf w1 (proj1 Hc1)))
      as (w2' & E2' & _ & G).
    rewrite E2 in E2'. injection E2' as <-.
    destruct (for_of_preserves registerDevice consistent ds w1
                registerDevice_consistent Hc1) as (w2' & E2' & Hc2).
    rewrite E2 in E2'. injection E2' as <-.
    exists w2, ({| accessory := r |} :: hs).
    erewrite bind_Some by exact E1. split; [exact E2|].
    split; [by rewrite Hh2, Hh1, <- (assoc_L _)|].
    constructor; [|exact HF]. simpl.
    destruct (grows_accessories _ _ _ G) as (new & Hacc & _).
    assert (JsMap.get (uuid_of d) (accessories w2) = Some r) as Hg2.
    { rewrite Hacc. by apply JsMap_get_app_Some. }
    split; [exact Hg2|].
    destruct Hc2 as [Hk2 _]. unfold keyed in Hk2.
    rewrite Forall_forall in Hk2.
    specialize (Hk2 (uuid_of d, r) (JsMap_get_elem_of _ _ _ Hg2)).
    simpl in Hk2. destruct (heap w2 !! r) as [a|]; [|done].
    exists a. split; [done|]. by injection Hk2.
Qed.

(** X15: after [registerDevices], one handler object has been created for
    each configured device, in configuration order, and each is bound to
    the accessory that the map holds under that device's UUID; that
    accessory exists and carries that UUID.  No handler is created for any
    other accessory. *)
Theorem registerDevices_binds_configured w :
  consistent w →
  ∃ w' hs,
    registerDevices w = Some (tt, w')
    ∧ handlers w' = handlers w ++ hs
    ∧ Forall2
        (λ d h,
           JsMap.get (uuid_of d) (accessories w') = Some (accessory h)
           ∧ ∃ a, heap w' !! accessory h = Some a ∧ UUID a = uuid_of d)
        (devices (config w)) hs.
Proof. apply registerDevices_bound. Qed.

Lemma prune_calls_all_seen seen es :
  Forall (λ e : string * ref, e.1 ∈ seen) es → prune_calls seen es = [].
Proof.
  induction 1 as [|e es He Hes IH]; [done|].
  by rewrite prune_calls_cons_seen.
Qed.

Lemma for_of_registerDevice_cached ds w :
  wf w →
  Forall (λ d, is_Some (JsMap.get (uuid_of d) (accessories w))) ds →
  ∃ w', for_of ds registerDevice w = Some (tt, w')
        ∧ heap w' = heap w
        ∧ accessories w' = accessories w
        ∧ api_calls w' = api_calls w
        ∧ airmx_calls w' = airmx_calls w
        ∧ discoveredUuids w' = discoveredUuids w ++ (uuid_of <$> ds).
Proof.
  intros Hwf Hall. revert w Hwf Hall.
  induction ds as [|d ds IH]; intros w Hwf Hall; simpl.
  - exists w. by rewrite (right_id_L [] _).
  - apply Forall_cons in Hall as [[r Hget] Hall].
    destruct (wf_lookup w _ r Hwf Hget) as [a Ha].
    erewrite bind_Some by (by apply registerDevice_existing).
    match goal with |- context [for_of ds registerDevice ?w0] =>
      destruct (IH w0) as (w2 & E2 & Hh & Hm & Hp & Hx & Hd);
        [exact Hwf|exact Hall|]
    end.
    exists w2. split; [exact E2|]. simpl in *.
    repeat split; try done. by rewrite Hd, <- (assoc_L _).
Qed.

(** X16: a start that finds the configuration and the cache in agreement
    changes nothing on the host.  If every configured device already has an
    entry in the map and every entry of the map belongs to a configured
    device, [didFinishLaunching] neither registers nor unregisters any
    accessory, creates no accessory object and leaves the map as it is. *)
Theorem unchanged_configuration_no_host_calls w :
  wf w →
  Forall (λ d, is_Some (JsMap.get (uuid_of d) (accessories w)))
         (devices (config w)) →
  Forall (λ e : string * ref, e.1 ∈ uuid_of <$> devices (config w))
         (accessories w) →
  ∃ w',
    didFinishLaunching w = Some (tt, w')
    ∧ api_calls w' = api_calls w
    ∧ accessories w' = accessories w
    ∧ heap w' = heap w
    ∧ airmx_calls w' = airmx_calls w.
Proof.
  intros Hwf Hdev Hent.
  destruct (for_of_registerDevice_cached _ w Hwf Hdev)
    as (w1 & E1 & Hh & Hm & Hp & Hx & Hd).
  unfold didFinishLaunching, registerDevices.
  erewrite bind_Some; cycle 1.
  { erewrite bind_Some by (unfold gets; reflexivity). exact E1. }
  rewrite cleanUpObsolete_run. eexists. split; [reflexivity|]. simpl.
  rewrite prune_calls_all_seen; [by rewrite (right_id_L [] _)|].
  rewrite Hd, Hm. eapply Forall_impl; [exact Hent|].
  intros e He. apply elem_of_app. by right.
Qed.

(** X17: a discovery pass never unregisters the accessory of a configured
    device, whether that accessory came from the cache or was created in
    the pass: after [didFinishLaunching] every configured device has an
    entry in the map, and the accessory of that entry is not among those
    named by the pass's [unregisterPlatformAccessories] calls. *)
Theorem configured_accessory_never_unregistered w :
  consistent w →
  ∃ w' calls,
    didFinishLaunching w = Some (tt, w')
    ∧ api_calls w' = api_calls w ++ calls
    ∧ ∀ d, d ∈ devices (config w) →
        ∃ r, JsMap.get (uuid_of d) (accessories w') = Some r
             ∧ r ∉ unregistered calls.
Proof.
  intros Hc. pose proof (keyed_wf w (proj1 Hc)) as Hwf.
  destruct (registerDevices_grows w Hwf)
    as (w1 & E1 & Hwf1 & [_ _ _ Hd (c & Hp & Hu) _]).
  destruct (registerDevices_consistent w Hc) as (w1' & E1' & [Hk1 _]).
  rewrite E1 in E1'. injection E1' as <-.
  destruct (registerDevices_bound w Hc) as (w1' & hs & E1' & _ & HF).
  rewrite E1 in E1'. injection E1' as <-.
  assert (∀ d, d ∈ devices (config w) →
            ∃ r, JsMap.get (uuid_of d) (accessories w1) = Some r) as Hent.
  { intros d [i Hi]%list_elem_of_lookup.
    destruct (Forall2_lookup_l _ _ _ _ _ HF Hi) as (h & _ & Hg & _).
    by eexists. }
  unfold didFinishLaunching. erewrite bind_Some by exact E1.
  rewrite cleanUpObsolete_run. eexists _, _. split; [reflexivity|].
  split; [simpl; by rewrite Hp, <- (assoc_L _)|].
  intros d Hin. simpl. destruct (Hent d Hin) as [r Hget].
  exists r. split; [exact Hget|].
  rewrite unregistered_app, Hu, unregistered_prune_calls. simpl.
  intros ((k & r') & Hr & Hf)%list_elem_of_fmap. simpl in Hr. subst r'.
  apply list_elem_of_filter in Hf as [Hk Hin']. simpl in Hk.
  unfold keyed in Hk1. rewrite Forall_forall in Hk1.
  pose proof (Hk1 _ Hin') as H1. simpl in H1.
  pose proof (Hk1 _ (JsMap_get_elem_of _ _ _ Hget)) as H2. simpl in H2.
  rewrite H1 in H2. injection H2 as ->.
  apply Hk. rewrite Hd. apply elem_of_app. right.
  by apply list_elem_of_fmap_2.
Qed.

Lemma registered_app l1 l2 :
  registered (l1 ++ l2) = registered l1 ++ registered l2.
Proof.
  induction l1 as [|[]]; simpl; [done| |done]. by rewrite IHl1, (assoc _).
Qed.

Lemma registered_prune_calls seen es : registered (prune_calls seen es) = [].
Proof.
  unfold prune_calls. generalize (filter (λ e, e.1 ∉ seen) es).
  intros l. by induction l.
Qed.

Lemma for_of_registerDevice_registers ds w :
  wf w →
  ∃ w' calls n,
    for_of ds registerDevice w = Some (tt, w')
    ∧ api_calls w' = api_calls w ++ calls
    ∧ length (heap w') = (length (heap w) + n)%nat
    ∧ registered calls = seq (length (heap w)) n.
Proof.
  revert w. induction ds as [|d ds IH]; intros w Hwf; simpl.
  - exists w, [], 0%nat. by rewrite (right_id_L [] _), Nat.add_0_r.
  - destruct (registerDevice_grows d w Hwf) as (w1 & E1 & Hwf1 & _).
    destruct (IH w1 Hwf1) as (w2 & c2 & n2 & E2 & Hp2 & Hl2 & Hr2).
    erewrite bind_Some by exact E1.
    destruct (JsMap.get (uuid_of d) (accessories w)) as [r|] eqn:Hget.
    + destruct (wf_lookup w _ r Hwf Hget) as [a Ha].
      rewrite (registerDevice_existing d w r a Hget Ha) in E1.
      injection E1 as <-. simpl in *.
      by exists w2, c2, n2.
    + rewrite (registerDevice_new d w Hget) in E1.
      injection E1 as <-. simpl in *. rewrite length_app in *. simpl in *.
      exists w2, (registerPlatformAccessories pluginIdentifier platformName
                    [length (heap w)] :: c2), (S n2).
      split; [exact E2|]. split; [by rewrite Hp2, <- (assoc_L _)|].
      split; [lia|]. simpl. f_equal. rewrite Hr2. f_equal. lia.
Qed.

(** X18: a discovery pass registers with the host exactly the accessory
    objects it creates, each once and in the order of creation; an
    accessory that existed before the pass, in particular one restored from
    the cache, is never registered again. *)
Theorem pass_registers_exactly_new_objects w :
  wf w →
  ∃ w' calls n,
    didFinishLaunching w = Some (tt, w')
    ∧ api_calls w' = api_calls w ++ calls
    ∧ length (heap w') = (length (heap w) + n)%nat
    ∧ registered calls = seq (length (heap w)) n
    ∧ NoDup (registered calls)
    ∧ ∀ r, is_Some (heap w !! r) → r ∉ registered calls.
Proof.
  intros Hwf.
  destruct (for_of_registerDevice_registers (devices (config w)) w Hwf)
    as (w1 & c & n & E1 & Hp & Hl & Hr).
  unfold didFinishLaunching, registerDevices.
  erewrite bind_Some; cycle 1.
  { erewrite bind_Some by (unfold gets; reflexivity). exact E1. }
  rewrite cleanUpObsolete_run.
  eexists _, (c ++ prune_calls (discoveredUuids w1) (accessories w1)), n.
  split; [reflexivity|]. simpl.
  split; [by rewrite Hp, <- (assoc_L _)|]. split; [exact Hl|].
  rewrite registered_app, registered_prune_calls, (right_id_L [] _), Hr.
  split; [done|]. split; [apply NoDup_seq|].
  intros r Hs%lookup_lt_is_Some Hin%elem_of_seq. lia.
Qed.

(** X19: which callback reaches what.  In a well-formed state every
    callback runs to completion, and: the host API is called only by
    [didFinishLaunching]; the AIRMX client is called only by the three set
    handlers, exactly once each; and the map, the discovered identifiers
    and the number of accessory objects change only through
    [configureAccessory] and [didFinishLaunching]. *)
Theorem callbacks_stay_in_their_lane e w :
  wf w → valid_event w e →
  ∃ w',
    step e w = Some (tt, w')
    ∧ (e ≠ DidFinishLaunching → api_calls w' = api_calls w)
    ∧ (if is_write e
       then ∃ c, airmx_calls w' = airmx_calls w ++ [c]
       else airmx_calls w' = airmx_calls w)
    ∧ (e ≠ DidFinishLaunching → (∀ cached, e ≠ HostRestore cached) →
         accessories w' = accessories w
         ∧ discoveredUuids w' = discoveredUuids w
         ∧ length (heap w') = length (heap w)).
Proof.
  intros Hwf Hv. destruct e as [cached| |st|c this|this v|this v|this v].
  - rewrite HostRestore_run. eexists. split; [reflexivity|].
    split; [done|]. split; [done|]. intros _ Hn. by destruct (Hn cached).
  - destruct (registerDevices_grows w Hwf)
      as (w1 & E1 & _ & [_ _ _ _ _ Hx]).
    simpl. unfold didFinishLaunching. erewrite bind_Some by exact E1.
    rewrite cleanUpObsolete_run. eexists. split; [reflexivity|].
    split; [done|]. split; [exact Hx|]. done.
  - simpl.
    destruct (JsMap.get (uuid_generate (toString (EagleStatus.deviceId st)))
                (accessories w)) as [r|] eqn:Hget.
    + destruct (wf_lookup w _ r Hwf Hget) as [a Ha].
      rewrite (onEagleUpdate_known st r a w Hget Ha).
      eexists. split; [reflexivity|]. simpl.
      repeat split; try done. apply length_insert.
    + destruct (unknown_device_drop st w Hget) as (w1 & E1 & -> & _).
      exists (logged "Receive a status update from device:"
                (EagleStatus.deviceId st) w). by repeat split.
  - destruct Hv as [a Ha]. simpl.
    destruct (onGet_reads c this a w Ha) as [v E].
    erewrite bind_Some by exact E. exists w. by repeat split.
  - destruct Hv as [a Ha].
    destruct (set_handlers_send this a v w Ha) as ([c E] & _).
    exists (sent c w). split; [exact E|]. repeat split; try done.
    by exists c.
  - destruct Hv as [a Ha].
    destruct (set_handlers_send this a v w Ha) as (_ & [c E] & _).
    exists (sent c w). split; [exact E|]. repeat split; try done.
    by exists c.
  - destruct Hv as [a Ha].
    destruct (set_handlers_send this a v w Ha) as (_ & _ & [c E]).
    exists (sent c w). split; [exact E|]. repeat split; try done.
    by exists c.
Qed.

Lemma for_of_registerDevice_fresh ds d w :
  wf w → d ∈ ds →
  JsMap.get (uuid_of d) (accessories w) = None →
  ∃ w' r a,
    for_of ds registerDevice w = Some (tt, w')
    ∧ JsMap.get (uuid_of d) (accessories w') = Some r
    ∧ heap w' !! r = Some a
    ∧ (length (heap w) ≤ r)%nat
    ∧ displayName a = "AIRMX Pro"
    ∧ UUID a = uuid_of d
    ∧ status (context a) = None
    ∧ device (context a) ∈ ds
    ∧ uuid_of (device (context a)) = uuid_of d.
Proof.
  revert w. induction ds as [|d0 ds IH]; intros w Hwf Hin Hget.
  { by apply elem_of_nil in Hin. }
  simpl. destruct (decide (uuid_of d0 = uuid_of d)) as [Heq|Hne].
  - rewrite <- Heq in Hget.
    erewrite bind_Some by (by apply registerDevice_new).
    match goal with |- context [for_of ds registerDevice ?w0] =>
      set (w1 := w0);
      assert (wf w1) as Hwf1;
        [|destruct (for_of_registerDevice ds w1 Hwf1) as (w2 & E2 & _ & G)]
    end.
    { destruct (registerDevice_grows d0 w Hwf) as (w1' & E1 & Hwf1 & _).
      rewrite (registerDevice_new d0 w Hget) in E1. by injection E1 as <-. }
    exists w2, (length (heap w)),
      {| displayName := "AIRMX Pro"; UUID := uuid_of d0;
         context := {| device := d0; status := None |} |}.
    split; [exact E2|].
    destruct (grows_accessories _ _ _ G) as (new & Hacc & _).
    destruct (grows_heap _ _ _ G) as (extra & Hh).
    split.
    { rewrite Hacc, <- Heq. apply JsMap_get_app_Some. simpl.
      apply JsMap_get_set. }
    split.
    { rewrite Hh. apply lookup_app_l_Some. simpl.
      by rewrite lookup_app_r, Nat.sub_diag. }
    simpl. repeat split; try done. left.
  - assert (d ∈ ds) as Hin'.
    { apply elem_of_cons in Hin as [->|?]; [done|done]. }
    destruct (registerDevice_grows d0 w Hwf)
      as (w1 & E1 & Hwf1 & [[x Hh] _ (new & Hacc & Hnew) _ _ _]).
    erewrite bind_Some by exact E1.
    destruct (IH w1 Hwf1 Hin') as (w2 & r & a & E2 & Hg & Ha & Hr & H').
    { rewrite Hacc, JsMap_get_app_None by done.
      apply JsMap_get_None. intros (e & He1 & He2)%list_elem_of_fmap.
      rewrite Forall_forall in Hnew. specialize (Hnew e He2).
      apply list_elem_of_singleton in Hnew. congruence. }
    exists w2, r, a. split; [exact E2|]. split; [exact Hg|].
    split; [exact Ha|]. split.
    { rewrite Hh, length_app in Hr. lia. }
    destruct H' as (?&?&?&?&?). repeat split; try done. by right.
Qed.

(** X20: a configured device that has no entry in the map when
    [registerDevices] starts gets a new accessory: an object created in the
    pass, named "AIRMX Pro", filed under the device's UUID, holding a
    configured device with that UUID, and with no status snapshot, so that
    its reads give the defaults until the first update arrives. *)
Theorem new_device_starts_without_status d w :
  wf w → d ∈ devices (config w) →
  JsMap.get (uuid_of d) (accessories w) = None →
  ∃ w' r a,
    registerDevices w = Some (tt, w')
    ∧ JsMap.get (uuid_of d) (accessories w') = Some r
    ∧ heap w' !! r = Some a
    ∧ (length (heap w) ≤ r)%nat
    ∧ displayName a = "AIRMX Pro"
    ∧ UUID a = uuid_of d
    ∧ status (context a) = None
    ∧ device (context a) ∈ devices (config w)
    ∧ uuid_of (device (context a)) = uuid_of d.
Proof.
  intros Hwf Hin Hget. unfold registerDevices.
  erewrite bind_Some by (unfold gets; reflexivity).
  by apply for_of_registerDevice_fresh.
Qed.

(** X21: discovery does not reset what telemetry has already brought.  If
    an update for a known device arrives and [didFinishLaunching] runs
    afterwards, the accessory still holds the snapshot of that update when
    the pass is over, whether the accessory is restored or pruned. *)
Theorem snapshot_survives_discovery (st : EagleStatus.t) r a w :
  wf w →
  JsMap.get (uuid_generate (toString (EagleStatus.deviceId st)))
    (accessories w) = Some r →
  heap w !! r = Some a →
  ∃ w1 w2,
    onEagleUpdate st w = Some (tt, w1)
    ∧ didFinishLaunching w1 = Some (tt, w2)
    ∧ JsMap.get (uuid_generate (toString (EagleStatus.deviceId st)))
        (accessories w2) = Some r
    ∧ heap w2 !! r = Some (with_status (Some (snapshot st)) a).
Proof.
  intros Hwf Hget Ha.
  destruct (step_frame (EagleUpdate st) w Hwf I) as (w1 & E1 & Hwf1 & _).
  simpl in E1. exists w1.
  assert (heap w1 !! r = Some (with_status (Some (snapshot st)) a)
          ∧ accessories w1 = accessories w) as [Hw1 Hm1].
  { rewrite (onEagleUpdate_known st r a w Hget Ha) in E1.
    injection E1 as <-. simpl. split; [|done].
    apply list_lookup_insert_eq. by eapply lookup_lt_Some. }
  destruct (registerDevices_grows w1 Hwf1)
    as (w1' & E1' & _ & [[x Hh] _ (new & Hacc & _) _ _ _]).
  unfold didFinishLaunching. erewrite bind_Some by exact E1'.
  rewrite cleanUpObsolete_run. eexists. split; [exact E1|].
  split; [reflexivity|]. simpl. split.
  - rewrite Hacc, Hm1. by apply JsMap_get_app_Some.
  - rewrite Hh. by apply lookup_app_l_Some.
Qed.

End Properties.

(** * The examples, run *)

#[local] Existing Instance example_hap.

(** The example states are states the plugin reaches. *)
Example example_world_reached :
  launch [] (AirmxPlatform example_config) = Some (tt, example_world).
Proof. vm_compute. reflexivity. Qed.

Example example_world_known_reached v :
  step (EagleUpdate (example_update v)) example_world
    = Some (tt, example_world_known v).
Proof. reflexivity. Qed.

Example example_world_restored_reached :
  for_of [example_accessory; example_accessory_2]
    (λ cached, step (HostRestore cached)) (AirmxPlatform example_config)
    = Some (tt, example_world_restored).
Proof. vm_compute. reflexivity. Qed.

Example example_world_discovered_reached :
  registerDevices example_world_restored
    = Some (tt, example_world_discovered).
Proof. vm_compute. reflexivity. Qed.

(** Writing Active=on and RotationSpeed=30 before any telemetry. *)
Lemma unknown_status_writes_from_stub_witness :
  heap example_world !! accessory example_handler = Some example_accessory
  ∧ status (context example_accessory) = None
  ∧ handleActiveSet example_handler Active_ACTIVE example_world =
      Some (tt, controlled example_accessory
        {| EagleControlData.power := 1; EagleControlData.heatStatus := 0;
           EagleControlData.mode := EagleMode.Manual;
           EagleControlData.cadr := 47; EagleControlData.denoise := 0 |}
        example_world)
  ∧ handleRotationSpeedSet example_handler 30 example_world =
      Some (tt, controlled example_accessory
        {| EagleControlData.power := 1; EagleControlData.heatStatus := 0;
           EagleControlData.mode := EagleMode.Manual;
           EagleControlData.cadr := 30; EagleControlData.denoise := 0 |}
        example_world).
Proof.
  split; [reflexivity|]. split; [reflexivity|].
  destruct (unknown_status_writes_from_stub example_handler
              example_accessory example_world eq_refl eq_refl)
    as (H1 & H2 & _).
  split; [exact H1|exact (H2 30)].
Defined.

(** The seven reads before any telemetry. *)
Lemma unknown_status_reads_default_witness :
  heap example_world !! accessory example_handler = Some example_accessory
  ∧ status (context example_accessory) = None
  ∧ handleActiveGet example_handler example_world
      = Some (Active_INACTIVE, example_world)
  ∧ handleFirmwareRevisionGet example_handler example_world
      = Some ("N/A", example_world).
Proof.
  split; [reflexivity|]. split; [reflexivity|].
  destruct (unknown_status_reads_default example_handler
              example_accessory example_world eq_refl eq_refl)
    as (H1 & _ & _ & _ & _ & _ & H7).
  split; [exact H1|exact H7].
Defined.

(** Pruning at the start that finds both accessories cached and only the
    first device configured: the second accessory is unregistered. *)
Lemma prune_unregisters_exactly_obsolete_witness :
  wf example_world_restored
  ∧ discoveredUuids example_world_restored = []
  ∧ uuid_of example_device ≠ uuid_of example_device_2
  ∧ ∃ w' calls,
      didFinishLaunching example_world_restored = Some (tt, w')
      ∧ api_calls w' = api_calls example_world_restored ++ calls
      ∧ unregistered calls = [1%nat].
Proof.
  assert (wf example_world_restored) as H1.
  { repeat constructor; by eexists. }
  assert (uuid_of example_device ≠ uuid_of example_device_2) as H3.
  { vm_compute. discriminate. }
  split; [exact H1|]. split; [reflexivity|]. split; [exact H3|].
  destruct (prune_unregisters_exactly_obsolete example_world_restored
              example_device example_device_2 "mqtt://192.168.10.10"
              H1 eq_refl H3) as ((w' & calls & E & Hc & Hu) & _).
  exists w', calls. split; [exact E|]. split; [exact Hc|].
  rewrite Hu. vm_compute. reflexivity.
Defined.

(** Writing Active=on after telemetry leaves the accessory objects alone. *)
Lemma only_telemetry_writes_status_witness :
  heap (example_world_known "1.0.3") !! accessory example_handler
    = Some (with_status (Some (example_status "1.0.3")) example_accessory)
  ∧ ∃ w', handleActiveSet example_handler Active_ACTIVE
            (example_world_known "1.0.3") = Some (tt, w')
          ∧ heap w' = heap (example_world_known "1.0.3")
          ∧ accessories w' = accessories (example_world_known "1.0.3").
Proof.
  split; [reflexivity|].
  exact (proj1 (only_telemetry_writes_status example_handler _ Active_ACTIVE
                  (example_world_known "1.0.3") eq_refl)).
Defined.

(** An update for device 7, which has no accessory. *)
Lemma unknown_device_update_dropped_witness :
  JsMap.get (uuid_generate (toString (EagleStatus.deviceId
               {| EagleStatus.deviceId := 7; EagleStatus.power := 1;
                  EagleStatus.mode := 1; EagleStatus.cadr := 20;
                  EagleStatus.g4Percent := 3; EagleStatus.carbonPercent := 4;
                  EagleStatus.hepaPercent := 5;
                  EagleStatus.version := "1.0.3" |})))
    (accessories example_world) = None
  ∧ ∃ w', onEagleUpdate
            {| EagleStatus.deviceId := 7; EagleStatus.power := 1;
               EagleStatus.mode := 1; EagleStatus.cadr := 20;
               EagleStatus.g4Percent := 3; EagleStatus.carbonPercent := 4;
               EagleStatus.hepaPercent := 5;
               EagleStatus.version := "1.0.3" |} example_world
            = Some (tt, w')
          ∧ w' = logged "Receive a status update from device:" 7
                   example_world
          ∧ accessories w' = accessories example_world
          ∧ heap w' = heap example_world.
Proof.
  split; [vm_compute; reflexivity|].
  apply unknown_device_update_dropped. vm_compute. reflexivity.
Defined.

(** The filter indication at a largest percentage of exactly 80. *)
Lemma filter_change_indication_threshold_witness :
  FilterChangeIndication_CHANGE_FILTER ≠ FilterChangeIndication_FILTER_OK
  ∧ heap (example_world_known "1.0.3") !! accessory example_handler
      = Some (with_status (Some (example_status "1.0.3")) example_accessory)
  ∧ handleFilterChangeIndicationGet example_handler
      (example_world_known "1.0.3")
      = Some (FilterChangeIndication_FILTER_OK, example_world_known "1.0.3").
Proof.
  assert (FilterChangeIndication_CHANGE_FILTER
            ≠ FilterChangeIndication_FILTER_OK) as H1.
  { vm_compute. discriminate. }
  split; [exact H1|]. split; [reflexivity|].
  destruct (filter_change_indication_threshold example_handler _
              (example_status "1.0.3") (example_world_known "1.0.3")
              H1 eq_refl eq_refl) as (v & E & _ & _ & H80).
  rewrite E. by rewrite (H80 eq_refl).
Defined.

(** The filter life level of the same snapshot: 20, and 20 + 80 = 100. *)
Lemma filter_life_level_complement_witness :
  heap (example_world_known "1.0.3") !! accessory example_handler
    = Some (with_status (Some (example_status "1.0.3")) example_accessory)
  ∧ ∃ v, handleFilterLifeLevelGet example_handler
           (example_world_known "1.0.3")
           = Some (v, example_world_known "1.0.3")
         ∧ v = 100 - 80
         ∧ v + 80 = 100.
Proof.
  split; [reflexivity|].
  exact (filter_life_level_complement example_handler _
           (example_status "1.0.3") (example_world_known "1.0.3")
           eq_refl eq_refl).
Defined.

(** Writing MANUAL after telemetry with cadr 30 keeps the 30. *)
Lemma known_status_target_state_write_witness :
  TargetAirPurifierState_MANUAL ≠ TargetAirPurifierState_AUTO
  ∧ heap (example_world_known "1.0.3") !! accessory example_handler
      = Some (with_status (Some (example_status "1.0.3")) example_accessory)
  ∧ handleTargetAirPurifierStateSet example_handler
      TargetAirPurifierState_AUTO (example_world_known "1.0.3")
      = Some (tt, sent (device_ai 1) (example_world_known "1.0.3"))
  ∧ handleTargetAirPurifierStateSet example_handler
      TargetAirPurifierState_MANUAL (example_world_known "1.0.3")
      = Some (tt, sent (device_cadr 1 30) (example_world_known "1.0.3")).
Proof.
  assert (TargetAirPurifierState_MANUAL ≠ TargetAirPurifierState_AUTO) as H1.
  { vm_compute. discriminate. }
  split; [exact H1|]. split; [reflexivity|].
  exact (known_status_target_state_write example_handler _
           (example_status "1.0.3") (example_world_known "1.0.3")
           H1 eq_refl eq_refl).
Defined.

(** C9 as stated fails: a snapshot whose [version] is the empty string
    reads "N/A", not the empty string. *)
Lemma firmware_revision_empty_version :
  heap (example_world_known "") !! accessory example_handler
    = Some (with_status (Some (example_status "")) example_accessory)
  ∧ status (context (with_status (Some (example_status ""))
                       example_accessory)) = Some (example_status "")
  ∧ handleFirmwareRevisionGet example_handler (example_world_known "")
      = Some ("N/A", example_world_known "")
  ∧ handleFirmwareRevisionGet example_handler (example_world_known "")
      ≠ Some (EagleStatusData.version (example_status ""),
              example_world_known "").
Proof.
  split; [reflexivity|]. split; [reflexivity|]. split; [reflexivity|].
  vm_compute. discriminate.
Qed.

(** The amended C9 on a snapshot with version "1.0.3". *)
Lemma firmware_revision_read_witness :
  heap (example_world_known "1.0.3") !! accessory example_handler
    = Some (with_status (Some (example_status "1.0.3")) example_accessory)
  ∧ EagleStatusData.version (example_status "1.0.3") ≠ ""
  ∧ handleFirmwareRevisionGet example_handler (example_world_known "1.0.3")
      = Some ("1.0.3", example_world_known "1.0.3").
Proof.
  assert (EagleStatusData.version (example_status "1.0.3") ≠ "") as H1.
  { vm_compute. discriminate. }
  split; [reflexivity|]. split; [exact H1|].
  exact (proj1 (firmware_revision_read example_handler _
                  (example_status "1.0.3") (example_world_known "1.0.3")
                  eq_refl eq_refl) H1).
Defined.

(** Pruning the second accessory and then an update from device 2. *)
Lemma pruned_accessory_still_updated_witness :
  JsMap.get "uuid-2" (accessories example_world_discovered) = Some 1%nat
  ∧ heap example_world_discovered !! 1%nat = Some example_accessory_2
  ∧ ("uuid-2" ∉ discoveredUuids example_world_discovered)
  ∧ uuid_generate (toString 2) = "uuid-2"
  ∧ ∃ w1 w2,
      cleanUpObsolete example_world_discovered = Some (tt, w1)
      ∧ unregisterPlatformAccessories pluginIdentifier platformName [1%nat]
          ∈ api_calls w1
      ∧ JsMap.get "uuid-2" (accessories w1) = Some 1%nat
      ∧ onEagleUpdate
          {| EagleStatus.deviceId := 2; EagleStatus.power := 1;
             EagleStatus.mode := 1; EagleStatus.cadr := 20;
             EagleStatus.g4Percent := 3; EagleStatus.carbonPercent := 4;
             EagleStatus.hepaPercent := 5;
             EagleStatus.version := "1.0.3" |} w1 = Some (tt, w2)
      ∧ (λ a, status (context a)) <$> (heap w2 !! 1%nat) =
          Some (Some {| EagleStatusData.power := 1;
                        EagleStatusData.mode := 1;
                        EagleStatusData.cadr := 20;
                        EagleStatusData.g4Percent := 3;
                        EagleStatusData.carbonPercent := 4;
                        EagleStatusData.hepaPercent := 5;
                        EagleStatusData.version := "1.0.3" |}).
Proof.
  assert ("uuid-2" ∉ discoveredUuids example_world_discovered) as H3.
  { by intros ?%list_elem_of_singleton. }
  assert (uuid_generate (toString 2) = "uuid-2") as H4.
  { vm_compute. reflexivity. }
  split; [reflexivity|]. split; [reflexivity|]. split; [exact H3|].
  split; [exact H4|].
  destruct (pruned_accessory_still_updated "uuid-2" 1%nat
              example_accessory_2
              {| EagleStatus.deviceId := 2; EagleStatus.power := 1;
                 EagleStatus.mode := 1; EagleStatus.cadr := 20;
                 EagleStatus.g4Percent := 3; EagleStatus.carbonPercent := 4;
                 EagleStatus.hepaPercent := 5;
                 EagleStatus.version := "1.0.3" |}
              example_world_discovered eq_refl eq_refl H3 H4)
    as (w1 & w2 & E1 & Hin & _ & Hget & E2 & Hh & _).
  exists w1, w2. split; [exact E1|]. split; [exact Hin|].
  split; [exact Hget|]. split; [exact E2|]. by rewrite Hh.
Defined.

(** * The further properties, run on the examples *)

Lemma example_world_wf : wf example_world.
Proof. repeat constructor; by eexists. Qed.

Lemma example_world_restored_consistent : consistent example_world_restored.
Proof.
  split.
  - repeat constructor.
  - simpl. apply NoDup_cons. split; [|apply NoDup_singleton].
    by intros ?%list_elem_of_singleton.
Qed.

Lemma example_uuid_1 : uuid_generate (toString 1) = "uuid-1".
Proof. vm_compute. reflexivity. Qed.

Lemma example_uuid_2 : uuid_generate (toString 2) = "uuid-2".
Proof. vm_compute. reflexivity. Qed.

Lemma known_status_active_write_witness :
  heap example_known !! accessory example_handler
    = Some example_accessory_known
  ∧ status (context example_accessory_known) = Some (example_status "1.0.3")
  ∧ handleActiveSet example_handler 1 example_known
      = Some (tt, sent (device_on 1) example_known)
  ∧ handleActiveSet example_handler 0 example_known
      = Some (tt, sent (device_off 1) example_known).
Proof.
  split; [reflexivity|]. split; [reflexivity|].
  split.
  - exact (proj1 (known_status_active_write example_handler
                    example_accessory_known (example_status "1.0.3") 1
                    example_known eq_refl eq_refl) eq_refl).
  - apply (known_status_active_write example_handler
             example_accessory_known (example_status "1.0.3") 0
             example_known eq_refl eq_refl).
    vm_compute. discriminate.
Defined.

Lemma known_status_rotation_speed_write_witness :
  heap example_known !! accessory example_handler
    = Some example_accessory_known
  ∧ status (context example_accessory_known) = Some (example_status "1.0.3")
  ∧ handleRotationSpeedSet example_handler 30 example_known
      = Some (tt, sent (device_cadr 1 30) example_known).
Proof.
  split; [reflexivity|]. split; [reflexivity|].
  exact (known_status_rotation_speed_write example_handler
           example_accessory_known (example_status "1.0.3") 30
           example_known eq_refl eq_refl).
Defined.

Lemma known_status_power_reads_witness :
  Active_ACTIVE ≠ Active_INACTIVE
  ∧ CurrentAirPurifierState_PURIFYING_AIR ≠ CurrentAirPurifierState_INACTIVE
  ∧ heap example_known !! accessory example_handler
      = Some example_accessory_known
  ∧ status (context example_accessory_known) = Some (example_status "1.0.3")
  ∧ handleActiveGet example_handler example_known
      = Some (Active_ACTIVE, example_known)
  ∧ handleCurrentAirPurifierStateGet example_handler example_known
      = Some (CurrentAirPurifierState_PURIFYING_AIR, example_known).
Proof.
  assert (Active_ACTIVE ≠ Active_INACTIVE) as H1.
  { vm_compute. discriminate. }
  assert (CurrentAirPurifierState_PURIFYING_AIR
            ≠ CurrentAirPurifierState_INACTIVE) as H2.
  { vm_compute. discriminate. }
  split; [exact H1|]. split; [exact H2|].
  split; [reflexivity|]. split; [reflexivity|].
  destruct (known_status_power_reads example_handler
              example_accessory_known (example_status "1.0.3")
              example_known H1 H2 eq_refl eq_refl)
    as (v1 & v2 & E1 & E2 & [_ Hv1] & [_ Hv2] & _).
  rewrite E1, E2, (Hv1 eq_refl), (Hv2 eq_refl). by split.
Defined.

Lemma known_status_target_state_read_witness :
  TargetAirPurifierState_AUTO ≠ TargetAirPurifierState_MANUAL
  ∧ heap example_known !! accessory example_handler
      = Some example_accessory_known
  ∧ status (context example_accessory_known) = Some (example_status "1.0.3")
  ∧ handleTargetAirPurifierStateGet example_handler example_known
      = Some (TargetAirPurifierState_MANUAL, example_known).
Proof.
  assert (TargetAirPurifierState_AUTO ≠ TargetAirPurifierState_MANUAL) as H1.
  { vm_compute. discriminate. }
  split; [exact H1|]. split; [reflexivity|]. split; [reflexivity|].
  destruct (known_status_target_state_read example_handler
              example_accessory_known (example_status "1.0.3")
              example_known H1 eq_refl eq_refl) as (v & E & _ & Hv).
  rewrite E, Hv; [done|]. vm_compute. discriminate.
Defined.

Lemma known_status_rotation_speed_read_witness :
  heap example_known !! accessory example_handler
    = Some example_accessory_known
  ∧ status (context example_accessory_known) = Some (example_status "1.0.3")
  ∧ handleRotationSpeedGet example_handler example_known
      = Some (30, example_known).
Proof.
  split; [reflexivity|]. split; [reflexivity|].
  exact (known_status_rotation_speed_read example_handler
           example_accessory_known (example_status "1.0.3")
           example_known eq_refl eq_refl).
Defined.

Lemma writes_address_own_device_witness :
  heap example_world !! accessory example_handler = Some example_accessory
  ∧ ∃ c1 c2 c3,
      handleActiveSet example_handler 1 example_world
        = Some (tt, sent c1 example_world)
      ∧ handleTargetAirPurifierStateSet example_handler 1 example_world
        = Some (tt, sent c2 example_world)
      ∧ handleRotationSpeedSet example_handler 1 example_world
        = Some (tt, sent c3 example_world)
      ∧ call_device c1 = 1 ∧ call_device c2 = 1 ∧ call_device c3 = 1.
Proof.
  split; [reflexivity|].
  exact (writes_address_own_device example_handler example_accessory 1
           example_world eq_refl).
Defined.

Lemma known_status_never_sends_control_witness :
  heap example_known !! accessory example_handler
    = Some example_accessory_known
  ∧ status (context example_accessory_known) = Some (example_status "1.0.3")
  ∧ step (RotationSpeedSet example_handler 30) example_known
      = Some (tt, sent (device_cadr 1 30) example_known)
  ∧ ∃ c, airmx_calls (sent (device_cadr 1 30) example_known)
           = airmx_calls example_known ++ [c]
         ∧ ∀ i data, c ≠ control i data.
Proof.
  split; [reflexivity|]. split; [reflexivity|]. split; [reflexivity|].
  apply (known_status_never_sends_control example_handler
           example_accessory_known (example_status "1.0.3") 30
           example_known eq_refl eq_refl
           (RotationSpeedSet example_handler 30)).
  - right. right. left.
  - reflexivity.
Defined.

Lemma read_after_write_unchanged_witness :
  is_write (ActiveSet example_handler 1) = true
  ∧ step (ActiveSet example_handler 1) example_known
      = Some (tt, sent (device_on 1) example_known)
  ∧ ∀ c this',
      fst <$> onGet c this' (sent (device_on 1) example_known)
        = fst <$> onGet c this' example_known.
Proof.
  split; [reflexivity|]. split; [reflexivity|].
  exact (read_after_write_unchanged (ActiveSet example_handler 1)
           example_known (sent (device_on 1) example_known)
           eq_refl eq_refl).
Defined.

Lemma successive_updates_last_wins_witness :
  EagleStatus.deviceId (example_update "1.0.4")
    = EagleStatus.deviceId (example_update "1.0.3")
  ∧ JsMap.get (uuid_generate (toString 1)) (accessories example_world)
      = Some 0%nat
  ∧ heap example_world !! 0%nat = Some example_accessory
  ∧ ∃ w1 w2 w2',
      onEagleUpdate (example_update "1.0.3") example_world = Some (tt, w1)
      ∧ onEagleUpdate (example_update "1.0.4") w1 = Some (tt, w2)
      ∧ onEagleUpdate (example_update "1.0.4") example_world
          = Some (tt, w2')
      ∧ heap w2 = heap w2'
      ∧ heap w2 !! 0%nat
          = Some (with_status (Some (snapshot (example_update "1.0.4")))
                    example_accessory).
Proof.
  assert (JsMap.get (uuid_generate (toString 1)) (accessories example_world)
          = Some 0%nat) as H2.
  { rewrite example_uuid_1. reflexivity. }
  split; [reflexivity|]. split; [exact H2|]. split; [reflexivity|].
  exact (successive_updates_last_wins (example_update "1.0.3")
           (example_update "1.0.4") 0%nat example_accessory example_world
           eq_refl H2 eq_refl).
Defined.

Lemma update_touches_one_status_witness :
  JsMap.get (uuid_generate (toString 2)) (accessories example_world_restored)
    = Some 1%nat
  ∧ heap example_world_restored !! 1%nat = Some example_accessory_2
  ∧ ∃ w',
      onEagleUpdate example_update_2 example_world_restored = Some (tt, w')
      ∧ heap w' !! 0%nat = Some example_accessory
      ∧ accessories w' = accessories example_world_restored
      ∧ airmx_calls w' = airmx_calls example_world_restored.
Proof.
  assert (JsMap.get (uuid_generate (toString 2))
            (accessories example_world_restored) = Some 1%nat) as H1.
  { rewrite example_uuid_2. reflexivity. }
  split; [exact H1|]. split; [reflexivity|].
  destruct (update_touches_one_status example_update_2 1%nat
              example_accessory_2 example_world_restored H1 eq_refl)
    as (w' & a' & E & _ & _ & _ & _ & _ & Hf & Hm & _ & _ & _ & Hx).
  exists w'. split; [exact E|]. split; [|by split].
  rewrite Hf by done. reflexivity.
Defined.

Lemma update_then_read_witness :
  JsMap.get (uuid_generate (toString 1)) (accessories example_world)
    = Some (accessory example_handler)
  ∧ heap example_world !! accessory example_handler = Some example_accessory
  ∧ ∃ w',
      onEagleUpdate (example_update "1.0.3") example_world = Some (tt, w')
      ∧ handleRotationSpeedGet example_handler w' = Some (30, w')
      ∧ handleFilterLifeLevelGet example_handler w' = Some (20, w')
      ∧ handleFirmwareRevisionGet example_handler w' = Some ("1.0.3", w').
Proof.
  assert (JsMap.get (uuid_generate (toString 1)) (accessories example_world)
          = Some (accessory example_handler)) as H1.
  { rewrite example_uuid_1. reflexivity. }
  split; [exact H1|]. split; [reflexivity|].
  destruct (update_then_read example_handler (example_update "1.0.3")
              example_accessory example_world H1 eq_refl)
    as (w' & E & Hr & Hf & Hv).
  exists w'. split; [exact E|]. split; [exact Hr|]. split; [exact Hf|].
  apply Hv. vm_compute. discriminate.
Defined.

Lemma update_then_write_witness :
  JsMap.get (uuid_generate (toString 1)) (accessories example_world)
    = Some (accessory example_handler)
  ∧ heap example_world !! accessory example_handler = Some example_accessory
  ∧ status (context example_accessory) = None
  ∧ ∃ w',
      onEagleUpdate (example_update "1.0.3") example_world = Some (tt, w')
      ∧ handleRotationSpeedSet example_handler 55 w'
          = Some (tt, sent (device_cadr 1 55) w')
      ∧ handleActiveSet example_handler Active_ACTIVE w'
          = Some (tt, sent (device_on 1) w').
Proof.
  assert (JsMap.get (uuid_generate (toString 1)) (accessories example_world)
          = Some (accessory example_handler)) as H1.
  { rewrite example_uuid_1. reflexivity. }
  split; [exact H1|]. split; [reflexivity|]. split; [reflexivity|].
  exact (update_then_write example_handler (example_update "1.0.3")
           example_accessory 55 example_world H1 eq_refl).
Defined.


Lemma reachable_consistent_witness :
  for_of [HostRestore example_accessory; HostRestore example_accessory_2]
    step (AirmxPlatform example_config) = Some (tt, example_world_restored)
  ∧ keyed example_world_restored
  ∧ NoDup (accessories example_world_restored).*1.
Proof.
  assert (for_of [HostRestore example_accessory;
                  HostRestore example_accessory_2]
            step (AirmxPlatform example_config)
          = Some (tt, example_world_restored)) as H1.
  { vm_compute. reflexivity. }
  split; [exact H1|].
  exact (reachable_consistent _ example_config example_world_restored H1).
Defined.

Lemma registerDevices_binds_configured_witness :
  consistent example_world_restored
  ∧ ∃ w' hs,
      registerDevices example_world_restored = Some (tt, w')
      ∧ handlers w' = handlers example_world_restored ++ hs
      ∧ Forall2
          (λ d h,
             JsMap.get (uuid_of d) (accessories w') = Some (accessory h)
             ∧ ∃ a, heap w' !! accessory h = Some a ∧ UUID a = uuid_of d)
          [example_device] hs.
Proof.
  split; [exact example_world_restored_consistent|].
  exact (registerDevices_binds_configured example_world_restored
           example_world_restored_consistent).
Defined.

Lemma unchanged_configuration_no_host_calls_witness :
  wf example_world
  ∧ Forall (λ d, is_Some (JsMap.get (uuid_of d) (accessories example_world)))
           (devices (config example_world))
  ∧ Forall (λ e : string * nat,
              e.1 ∈ uuid_of <$> devices (config example_world))
           (accessories example_world)
  ∧ ∃ w',
      didFinishLaunching example_world = Some (tt, w')
      ∧ api_calls w' = api_calls example_world
      ∧ accessories w' = accessories example_world
      ∧ heap w' = heap example_world
      ∧ airmx_calls w' = airmx_calls example_world.
Proof.
  assert (Forall (λ d, is_Some (JsMap.get (uuid_of d)
                                  (accessories example_world)))
                 (devices (config example_world))) as H2.
  { constructor; [|constructor]. vm_compute. by eexists. }
  assert (Forall (λ e : string * nat,
                    e.1 ∈ uuid_of <$> devices (config example_world))
                 (accessories example_world)) as H3.
  { constructor; [|constructor]. vm_compute. left. }
  split; [exact example_world_wf|]. split; [exact H2|]. split; [exact H3|].
  exact (unchanged_configuration_no_host_calls example_world
           example_world_wf H2 H3).
Defined.

Lemma configured_accessory_never_unregistered_witness :
  consistent example_world_restored
  ∧ ∃ w' calls,
      didFinishLaunching example_world_restored = Some (tt, w')
      ∧ api_calls w' = api_calls example_world_restored ++ calls
      ∧ ∀ d, d ∈ devices (config example_world_restored) →
          ∃ r, JsMap.get (uuid_of d) (accessories w') = Some r
               ∧ r ∉ unregistered calls.
Proof.
  split; [exact example_world_restored_consistent|].
  exact (configured_accessory_never_unregistered example_world_restored
           example_world_restored_consistent).
Defined.

Lemma pass_registers_exactly_new_objects_witness :
  wf (AirmxPlatform example_config)
  ∧ ∃ w' calls n,
      didFinishLaunching (AirmxPlatform example_config) = Some (tt, w')
      ∧ api_calls w' = api_calls (AirmxPlatform example_config) ++ calls
      ∧ length (heap w')
          = (length (heap (AirmxPlatform example_config)) + n)%nat
      ∧ registered calls
          = seq (length (heap (AirmxPlatform example_config))) n
      ∧ NoDup (registered calls)
      ∧ ∀ r, is_Some (heap (AirmxPlatform example_config) !! r) →
             r ∉ registered calls.
Proof.
  assert (wf (AirmxPlatform example_config)) as H1 by constructor.
  split; [exact H1|].
  exact (pass_registers_exactly_new_objects (AirmxPlatform example_config)
           H1).
Defined.

Lemma callbacks_stay_in_their_lane_witness :
  wf example_world
  ∧ valid_event example_world (RotationSpeedSet example_handler 30)
  ∧ ∃ w',
      step (RotationSpeedSet example_handler 30) example_world
        = Some (tt, w')
      ∧ api_calls w' = api_calls example_world
      ∧ (∃ c, airmx_calls w' = airmx_calls example_world ++ [c])
      ∧ accessories w' = accessories example_world.
Proof.
  assert (valid_event example_world (RotationSpeedSet example_handler 30))
    as H2 by by eexists.
  split; [exact example_world_wf|]. split; [exact H2|].
  destruct (callbacks_stay_in_their_lane
              (RotationSpeedSet example_handler 30) example_world
              example_world_wf H2) as (w' & E & Hapi & Hx & Hm).
  exists w'. split; [exact E|]. split; [by apply Hapi|].
  split; [exact Hx|]. by apply Hm.
Defined.

Lemma new_device_starts_without_status_witness :
  wf (AirmxPlatform example_config)
  ∧ example_device ∈ devices (config (AirmxPlatform example_config))
  ∧ JsMap.get (uuid_of example_device)
      (accessories (AirmxPlatform example_config)) = None
  ∧ ∃ w' r a,
      registerDevices (AirmxPlatform example_config) = Some (tt, w')
      ∧ JsMap.get (uuid_of example_device) (accessories w') = Some r
      ∧ heap w' !! r = Some a
      ∧ displayName a = "AIRMX Pro"
      ∧ status (context a) = None.
Proof.
  assert (wf (AirmxPlatform example_config)) as H1 by constructor.
  assert (example_device ∈ devices (config (AirmxPlatform example_config)))
    as H2 by left.
  split; [exact H1|]. split; [exact H2|]. split; [reflexivity|].
  destruct (new_device_starts_without_status example_device
              (AirmxPlatform example_config) H1 H2 eq_refl)
    as (w' & r & a & E & Hg & Ha & _ & Hn & _ & Hs & _).
  by exists w', r, a.
Defined.

Lemma snapshot_survives_discovery_witness :
  wf example_world_restored
  ∧ JsMap.get (uuid_generate (toString 2))
      (accessories example_world_restored) = Some 1%nat
  ∧ heap example_world_restored !! 1%nat = Some example_accessory_2
  ∧ ∃ w1 w2,
      onEagleUpdate example_update_2 example_world_restored = Some (tt, w1)
      ∧ didFinishLaunching w1 = Some (tt, w2)
      ∧ JsMap.get (uuid_generate (toString 2)) (accessories w2)
          = Some 1%nat
      ∧ heap w2 !! 1%nat
          = Some (with_status (Some (snapshot example_update_2))
                    example_accessory_2).
Proof.
  assert (wf example_world_restored) as H1.
  { exact (keyed_wf _ (proj1 example_world_restored_consistent)). }
  assert (JsMap.get (uuid_generate (toString 2))
            (accessories example_world_restored) = Some 1%nat) as H2.
  { rewrite example_uuid_2. reflexivity. }
  split; [exact H1|]. split; [exact H2|]. split; [reflexivity|].
  exact (snapshot_survives_discovery example_update_2 1%nat
           example_accessory_2 example_world_restored H1 H2 eq_refl).
Defined.
